(** * GSTIN format validation and OCR correction (src/app.py)

    A shallow embedding of the GSTIN helpers of the invoice extractor:
    [AMBIGUOUS_MAPS], [is_valid_gstin_format], [try_fix_gstin] and
    [post_process_invoice_data], followed by the properties stated about
    them in the specification.

    Python strings are sequences of Unicode code points, so a character is
    a code point (an [N]) and a string a list of them.  [str.upper] is the
    per-character full case mapping of CPython (context free for upper
    casing); the table below is the one of CPython 3.11 (Unicode 14.0.0).
    Code points range over 0 .. 0x10FFFF; the statements below quantify
    over all of [N], which includes them. *)

From Stdlib Require Import NArith Ascii String List Bool Lia.
From stdpp Require Import base decidable numbers option list strings gmap fin_maps.

Local Open Scope N_scope.

(** ** Characters and strings *)

Abbreviation char := N (only parsing).
Abbreviation str := (list N) (only parsing).

(** [ord "a"]: the code point of an ASCII character literal. *)
Definition ord (a : ascii) : char := N_of_ascii a.

(** A Python string literal made of ASCII characters. *)
Fixpoint pystr (s : string) : str :=
  match s with
  | EmptyString => []
  | String a s' => ord a :: pystr s'
  end.

(** The line feed, the only character [$] may leave unmatched. *)
Definition LF : char := 10.

(** ** [str.upper]

    Every code point whose upper casing differs from itself, with its upper
    casing (one to three code points).  Code points not listed are
    unchanged. *)
Definition upper_table : list (char * str) := [
  (97, [65]); (98, [66]); (99, [67]); (100, [68]); (101, [69]);
  (102, [70]); (103, [71]); (104, [72]); (105, [73]); (106, [74]);
  (107, [75]); (108, [76]); (109, [77]); (110, [78]); (111, [79]);
  (112, [80]); (113, [81]); (114, [82]); (115, [83]); (116, [84]);
  (117, [85]); (118, [86]); (119, [87]); (120, [88]); (121, [89]);
  (122, [90]); (181, [924]); (223, [83; 83]); (224, [192]); (225, [193]);
  (226, [194]); (227, [195]); (228, [196]); (229, [197]); (230, [198]);
  (231, [199]); (232, [200]); (233, [201]); (234, [202]); (235, [203]);
  (236, [204]); (237, [205]); (238, [206]); (239, [207]); (240, [208]);
  (241, [209]); (242, [210]); (243, [211]); (244, [212]); (245, [213]);
  (246, [214]); (248, [216]); (249, [217]); (250, [218]); (251, [219]);
  (252, [220]); (253, [221]); (254, [222]); (255, [376]); (257, [256]);
  (259, [258]); (261, [260]); (263, [262]); (265, [264]); (267, [266]);
  (269, [268]); (271, [270]); (273, [272]); (275, [274]); (277, [276]);
  (279, [278]); (281, [280]); (283, [282]); (285, [284]); (287, [286]);
  (289, [288]); (291, [290]); (293, [292]); (295, [294]); (297, [296]);
  (299, [298]); (301, [300]); (303, [302]); (305, [73]); (307, [306]);
  (309, [308]); (311, [310]); (314, [313]); (316, [315]); (318, [317]);
  (320, [319]); (322, [321]); (324, [323]); (326, [325]); (328, [327]);
  (329, [700; 78]); (331, [330]); (333, [332]); (335, [334]); (337, [336]);
  (339, [338]); (341, [340]); (343, [342]); (345, [344]); (347, [346]);
  (349, [348]); (351, [350]); (353, [352]); (355, [354]); (357, [356]);
  (359, [358]); (361, [360]); (363, [362]); (365, [364]); (367, [366]);
  (369, [368]); (371, [370]); (373, [372]); (375, [374]); (378, [377]);
  (380, [379]); (382, [381]); (383, [83]); (384, [579]); (387, [386]);
  (389, [388]); (392, [391]); (396, [395]); (402, [401]); (405, [502]);
  (409, [408]); (410, [573]); (414, [544]); (417, [416]); (419, [418]);
  (421, [420]); (424, [423]); (429, [428]); (432, [431]); (436, [435]);
  (438, [437]); (441, [440]); (445, [444]); (447, [503]); (453, [452]);
  (454, [452]); (456, [455]); (457, [455]); (459, [458]); (460, [458]);
  (462, [461]); (464, [463]); (466, [465]); (468, [467]); (470, [469]);
  (472, [471]); (474, [473]); (476, [475]); (477, [398]); (479, [478]);
  (481, [480]); (483, [482]); (485, [484]); (487, [486]); (489, [488]);
  (491, [490]); (493, [492]); (495, [494]); (496, [74; 780]); (498, [497]);
  (499, [497]); (501, [500]); (505, [504]); (507, [506]); (509, [508]);
  (511, [510]); (513, [512]); (515, [514]); (517, [516]); (519, [518]);
  (521, [520]); (523, [522]); (525, [524]); (527, [526]); (529, [528]);
  (531, [530]); (533, [532]); (535, [534]); (537, [536]); (539, [538]);
  (541, [540]); (543, [542]); (547, [546]); (549, [548]); (551, [550]);
  (553, [552]); (555, [554]); (557, [556]); (559, [558]); (561, [560]);
  (563, [562]); (572, [571]); (575, [11390]); (576, [11391]); (578, [577]);
  (583, [582]); (585, [584]); (587, [586]); (589, [588]); (591, [590]);
  (592, [11375]); (593, [11373]); (594, [11376]); (595, [385]); (596, [390]);
  (598, [393]); (599, [394]); (601, [399]); (603, [400]); (604, [42923]);
  (608, [403]); (609, [42924]); (611, [404]); (613, [42893]); (614, [42922]);
  (616, [407]); (617, [406]); (618, [42926]); (619, [11362]); (620, [42925]);
  (623, [412]); (625, [11374]); (626, [413]); (629, [415]); (637, [11364]);
  (640, [422]); (642, [42949]); (643, [425]); (647, [42929]); (648, [430]);
  (649, [580]); (650, [433]); (651, [434]); (652, [581]); (658, [439]);
  (669, [42930]); (670, [42928]); (837, [921]); (881, [880]); (883, [882]);
  (887, [886]); (891, [1021]); (892, [1022]); (893, [1023]); (912, [921; 776; 769]);
  (940, [902]); (941, [904]); (942, [905]); (943, [906]); (944, [933; 776; 769]);
  (945, [913]); (946, [914]); (947, [915]); (948, [916]); (949, [917]);
  (950, [918]); (951, [919]); (952, [920]); (953, [921]); (954, [922]);
  (955, [923]); (956, [924]); (957, [925]); (958, [926]); (959, [927]);
  (960, [928]); (961, [929]); (962, [931]); (963, [931]); (964, [932]);
  (965, [933]); (966, [934]); (967, [935]); (968, [936]); (969, [937]);
  (970, [938]); (971, [939]); (972, [908]); (973, [910]); (974, [911]);
  (976, [914]); (977, [920]); (981, [934]); (982, [928]); (983, [975]);
  (985, [984]); (987, [986]); (989, [988]); (991, [990]); (993, [992]);
  (995, [994]); (997, [996]); (999, [998]); (1001, [1000]); (1003, [1002]);
  (1005, [1004]); (1007, [1006]); (1008, [922]); (1009, [929]); (1010, [1017]);
  (1011, [895]); (1013, [917]); (1016, [1015]); (1019, [1018]); (1072, [1040]);
  (1073, [1041]); (1074, [1042]); (1075, [1043]); (1076, [1044]); (1077, [1045]);
  (1078, [1046]); (1079, [1047]); (1080, [1048]); (1081, [1049]); (1082, [1050]);
  (1083, [1051]); (1084, [1052]); (1085, [1053]); (1086, [1054]); (1087, [1055]);
  (1088, [1056]); (1089, [1057]); (1090, [1058]); (1091, [1059]); (1092, [1060]);
  (1093, [1061]); (1094, [1062]); (1095, [1063]); (1096, [1064]); (1097, [1065]);
  (1098, [1066]); (1099, [1067]); (1100, [1068]); (1101, [1069]); (1102, [1070]);
  (1103, [1071]); (1104, [1024]); (1105, [1025]); (1106, [1026]); (1107, [1027]);
  (1108, [1028]); (1109, [1029]); (1110, [1030]); (1111, [1031]); (1112, [1032]);
  (1113, [1033]); (1114, [1034]); (1115, [1035]); (1116, [1036]); (1117, [1037]);
  (1118, [1038]); (1119, [1039]); (1121, [1120]); (1123, [1122]); (1125, [1124]);
  (1127, [1126]); (1129, [1128]); (1131, [1130]); (1133, [1132]); (1135, [1134]);
  (1137, [1136]); (1139, [1138]); (1141, [1140]); (1143, [1142]); (1145, [1144]);
  (1147, [1146]); (1149, [1148]); (1151, [1150]); (1153, [1152]); (1163, [1162]);
  (1165, [1164]); (1167, [1166]); (1169, [1168]); (1171, [1170]); (1173, [1172]);
  (1175, [1174]); (1177, [1176]); (1179, [1178]); (1181, [1180]); (1183, [1182]);
  (1185, [1184]); (1187, [1186]); (1189, [1188]); (1191, [1190]); (1193, [1192]);
  (1195, [1194]); (1197, [1196]); (1199, [1198]); (1201, [1200]); (1203, [1202]);
  (1205, [1204]); (1207, [1206]); (1209, [1208]); (1211, [1210]); (1213, [1212]);
  (1215, [1214]); (1218, [1217]); (1220, [1219]); (1222, [1221]); (1224, [1223]);
  (1226, [1225]); (1228, [1227]); (1230, [1229]); (1231, [1216]); (1233, [1232]);
  (1235, [1234]); (1237, [1236]); (1239, [1238]); (1241, [1240]); (1243, [1242]);
  (1245, [1244]); (1247, [1246]); (1249, [1248]); (1251, [1250]); (1253, [1252]);
  (1255, [1254]); (1257, [1256]); (1259, [1258]); (1261, [1260]); (1263, [1262]);
  (1265, [1264]); (1267, [1266]); (1269, [1268]); (1271, [1270]); (1273, [1272]);
  (1275, [1274]); (1277, [1276]); (1279, [1278]); (1281, [1280]); (1283, [1282]);
  (1285, [1284]); (1287, [1286]); (1289, [1288]); (1291, [1290]); (1293, [1292]);
  (1295, [1294]); (1297, [1296]); (1299, [1298]); (1301, [1300]); (1303, [1302]);
  (1305, [1304]); (1307, [1306]); (1309, [1308]); (1311, [1310]); (1313, [1312]);
  (1315, [1314]); (1317, [1316]); (1319, [1318]); (1321, [1320]); (1323, [1322]);
  (1325, [1324]); (1327, [1326]); (1377, [1329]); (1378, [1330]); (1379, [1331]);
  (1380, [1332]); (1381, [1333]); (1382, [1334]); (1383, [1335]); (1384, [1336]);
  (1385, [1337]); (1386, [1338]); (1387, [1339]); (1388, [1340]); (1389, [1341]);
  (1390, [1342]); (1391, [1343]); (1392, [1344]); (1393, [1345]); (1394, [1346]);
  (1395, [1347]); (1396, [1348]); (1397, [1349]); (1398, [1350]); (1399, [1351]);
  (1400, [1352]); (1401, [1353]); (1402, [1354]); (1403, [1355]); (1404, [1356]);
  (1405, [1357]); (1406, [1358]); (1407, [1359]); (1408, [1360]); (1409, [1361]);
  (1410, [1362]); (1411, [1363]); (1412, [1364]); (1413, [1365]); (1414, [1366]);
  (1415, [1333; 1362]); (4304, [7312]); (4305, [7313]); (4306, [7314]); (4307, [7315]);
  (4308, [7316]); (4309, [7317]); (4310, [7318]); (4311, [7319]); (4312, [7320]);
  (4313, [7321]); (4314, [7322]); (4315, [7323]); (4316, [7324]); (4317, [7325]);
  (4318, [7326]); (4319, [7327]); (4320, [7328]); (4321, [7329]); (4322, [7330]);
  (4323, [7331]); (4324, [7332]); (4325, [7333]); (4326, [7334]); (4327, [7335]);
  (4328, [7336]); (4329, [7337]); (4330, [7338]); (4331, [7339]); (4332, [7340]);
  (4333, [7341]); (4334, [7342]); (4335, [7343]); (4336, [7344]); (4337, [7345]);
  (4338, [7346]); (4339, [7347]); (4340, [7348]); (4341, [7349]); (4342, [7350]);
  (4343, [7351]); (4344, [7352]); (4345, [7353]); (4346, [7354]); (4349, [7357]);
  (4350, [7358]); (4351, [7359]); (5112, [5104]); (5113, [5105]); (5114, [5106]);
  (5115, [5107]); (5116, [5108]); (5117, [5109]); (7296, [1042]); (7297, [1044]);
  (7298, [1054]); (7299, [1057]); (7300, [1058]); (7301, [1058]); (7302, [1066]);
  (7303, [1122]); (7304, [42570]); (7545, [42877]); (7549, [11363]); (7566, [42950]);
  (7681, [7680]); (7683, [7682]); (7685, [7684]); (7687, [7686]); (7689, [7688]);
  (7691, [7690]); (7693, [7692]); (7695, [7694]); (7697, [7696]); (7699, [7698]);
  (7701, [7700]); (7703, [7702]); (7705, [7704]); (7707, [7706]); (7709, [7708]);
  (7711, [7710]); (7713, [7712]); (7715, [7714]); (7717, [7716]); (7719, [7718]);
  (7721, [7720]); (7723, [7722]); (7725, [7724]); (7727, [7726]); (7729, [7728]);
  (7731, [7730]); (7733, [7732]); (7735, [7734]); (7737, [7736]); (7739, [7738]);
  (7741, [7740]); (7743, [7742]); (7745, [7744]); (7747, [7746]); (7749, [7748]);
  (7751, [7750]); (7753, [7752]); (7755, [7754]); (7757, [7756]); (7759, [7758]);
  (7761, [7760]); (7763, [7762]); (7765, [7764]); (7767, [7766]); (7769, [7768]);
  (7771, [7770]); (7773, [7772]); (7775, [7774]); (7777, [7776]); (7779, [7778]);
  (7781, [7780]); (7783, [7782]); (7785, [7784]); (7787, [7786]); (7789, [7788]);
  (7791, [7790]); (7793, [7792]); (7795, [7794]); (7797, [7796]); (7799, [7798]);
  (7801, [7800]); (7803, [7802]); (7805, [7804]); (7807, [7806]); (7809, [7808]);
  (7811, [7810]); (7813, [7812]); (7815, [7814]); (7817, [7816]); (7819, [7818]);
  (7821, [7820]); (7823, [7822]); (7825, [7824]); (7827, [7826]); (7829, [7828]);
  (7830, [72; 817]); (7831, [84; 776]); (7832, [87; 778]); (7833, [89; 778]); (7834, [65; 702]);
  (7835, [7776]); (7841, [7840]); (7843, [7842]); (7845, [7844]); (7847, [7846]);
  (7849, [7848]); (7851, [7850]); (7853, [7852]); (7855, [7854]); (7857, [7856]);
  (7859, [7858]); (7861, [7860]); (7863, [7862]); (7865, [7864]); (7867, [7866]);
  (7869, [7868]); (7871, [7870]); (7873, [7872]); (7875, [7874]); (7877, [7876]);
  (7879, [7878]); (7881, [7880]); (7883, [7882]); (7885, [7884]); (7887, [7886]);
  (7889, [7888]); (7891, [7890]); (7893, [7892]); (7895, [7894]); (7897, [7896]);
  (7899, [7898]); (7901, [7900]); (7903, [7902]); (7905, [7904]); (7907, [7906]);
  (7909, [7908]); (7911, [7910]); (7913, [7912]); (7915, [7914]); (7917, [7916]);
  (7919, [7918]); (7921, [7920]); (7923, [7922]); (7925, [7924]); (7927, [7926]);
  (7929, [7928]); (7931, [7930]); (7933, [7932]); (7935, [7934]); (7936, [7944]);
  (7937, [7945]); (7938, [7946]); (7939, [7947]); (7940, [7948]); (7941, [7949]);
  (7942, [7950]); (7943, [7951]); (7952, [7960]); (7953, [7961]); (7954, [7962]);
  (7955, [7963]); (7956, [7964]); (7957, [7965]); (7968, [7976]); (7969, [7977]);
  (7970, [7978]); (7971, [7979]); (7972, [7980]); (7973, [7981]); (7974, [7982]);
  (7975, [7983]); (7984, [7992]); (7985, [7993]); (7986, [7994]); (7987, [7995]);
  (7988, [7996]); (7989, [7997]); (7990, [7998]); (7991, [7999]); (8000, [8008]);
  (8001, [8009]); (8002, [8010]); (8003, [8011]); (8004, [8012]); (8005, [8013]);
  (8016, [933; 787]); (8017, [8025]); (8018, [933; 787; 768]); (8019, [8027]); (8020, [933; 787; 769]);
  (8021, [8029]); (8022, [933; 787; 834]); (8023, [8031]); (8032, [8040]); (8033, [8041]);
  (8034, [8042]); (8035, [8043]); (8036, [8044]); (8037, [8045]); (8038, [8046]);
  (8039, [8047]); (8048, [8122]); (8049, [8123]); (8050, [8136]); (8051, [8137]);
  (8052, [8138]); (8053, [8139]); (8054, [8154]); (8055, [8155]); (8056, [8184]);
  (8057, [8185]); (8058, [8170]); (8059, [8171]); (8060, [8186]); (8061, [8187]);
  (8064, [7944; 921]); (8065, [7945; 921]); (8066, [7946; 921]); (8067, [7947; 921]); (8068, [7948; 921]);
  (8069, [7949; 921]); (8070, [7950; 921]); (8071, [7951; 921]); (8072, [7944; 921]); (8073, [7945; 921]);
  (8074, [7946; 921]); (8075, [7947; 921]); (8076, [7948; 921]); (8077, [7949; 921]); (8078, [7950; 921]);
  (8079, [7951; 921]); (8080, [7976; 921]); (8081, [7977; 921]); (8082, [7978; 921]); (8083, [7979; 921]);
  (8084, [7980; 921]); (8085, [7981; 921]); (8086, [7982; 921]); (8087, [7983; 921]); (8088, [7976; 921]);
  (8089, [7977; 921]); (8090, [7978; 921]); (8091, [7979; 921]); (8092, [7980; 921]); (8093, [7981; 921]);
  (8094, [7982; 921]); (8095, [7983; 921]); (8096, [8040; 921]); (8097, [8041; 921]); (8098, [8042; 921]);
  (8099, [8043; 921]); (8100, [8044; 921]); (8101, [8045; 921]); (8102, [8046; 921]); (8103, [8047; 921]);
  (8104, [8040; 921]); (8105, [8041; 921]); (8106, [8042; 921]); (8107, [8043; 921]); (8108, [8044; 921]);
  (8109, [8045; 921]); (8110, [8046; 921]); (8111, [8047; 921]); (8112, [8120]); (8113, [8121]);
  (8114, [8122; 921]); (8115, [913; 921]); (8116, [902; 921]); (8118, [913; 834]); (8119, [913; 834; 921]);
  (8124, [913; 921]); (8126, [921]); (8130, [8138; 921]); (8131, [919; 921]); (8132, [905; 921]);
  (8134, [919; 834]); (8135, [919; 834; 921]); (8140, [919; 921]); (8144, [8152]); (8145, [8153]);
  (8146, [921; 776; 768]); (8147, [921; 776; 769]); (8150, [921; 834]); (8151, [921; 776; 834]); (8160, [8168]);
  (8161, [8169]); (8162, [933; 776; 768]); (8163, [933; 776; 769]); (8164, [929; 787]); (8165, [8172]);
  (8166, [933; 834]); (8167, [933; 776; 834]); (8178, [8186; 921]); (8179, [937; 921]); (8180, [911; 921]);
  (8182, [937; 834]); (8183, [937; 834; 921]); (8188, [937; 921]); (8526, [8498]); (8560, [8544]);
  (8561, [8545]); (8562, [8546]); (8563, [8547]); (8564, [8548]); (8565, [8549]);
  (8566, [8550]); (8567, [8551]); (8568, [8552]); (8569, [8553]); (8570, [8554]);
  (8571, [8555]); (8572, [8556]); (8573, [8557]); (8574, [8558]); (8575, [8559]);
  (8580, [8579]); (9424, [9398]); (9425, [9399]); (9426, [9400]); (9427, [9401]);
  (9428, [9402]); (9429, [9403]); (9430, [9404]); (9431, [9405]); (9432, [9406]);
  (9433, [9407]); (9434, [9408]); (9435, [9409]); (9436, [9410]); (9437, [9411]);
  (9438, [9412]); (9439, [9413]); (9440, [9414]); (9441, [9415]); (9442, [9416]);
  (9443, [9417]); (9444, [9418]); (9445, [9419]); (9446, [9420]); (9447, [9421]);
  (9448, [9422]); (9449, [9423]); (11312, [11264]); (11313, [11265]); (11314, [11266]);
  (11315, [11267]); (11316, [11268]); (11317, [11269]); (11318, [11270]); (11319, [11271]);
  (11320, [11272]); (11321, [11273]); (11322, [11274]); (11323, [11275]); (11324, [11276]);
  (11325, [11277]); (11326, [11278]); (11327, [11279]); (11328, [11280]); (11329, [11281]);
  (11330, [11282]); (11331, [11283]); (11332, [11284]); (11333, [11285]); (11334, [11286]);
  (11335, [11287]); (11336, [11288]); (11337, [11289]); (11338, [11290]); (11339, [11291]);
  (11340, [11292]); (11341, [11293]); (11342, [11294]); (11343, [11295]); (11344, [11296]);
  (11345, [11297]); (11346, [11298]); (11347, [11299]); (11348, [11300]); (11349, [11301]);
  (11350, [11302]); (11351, [11303]); (11352, [11304]); (11353, [11305]); (11354, [11306]);
  (11355, [11307]); (11356, [11308]); (11357, [11309]); (11358, [11310]); (11359, [11311]);
  (11361, [11360]); (11365, [570]); (11366, [574]); (11368, [11367]); (11370, [11369]);
  (11372, [11371]); (11379, [11378]); (11382, [11381]); (11393, [11392]); (11395, [11394]);
  (11397, [11396]); (11399, [11398]); (11401, [11400]); (11403, [11402]); (11405, [11404]);
  (11407, [11406]); (11409, [11408]); (11411, [11410]); (11413, [11412]); (11415, [11414]);
  (11417, [11416]); (11419, [11418]); (11421, [11420]); (11423, [11422]); (11425, [11424]);
  (11427, [11426]); (11429, [11428]); (11431, [11430]); (11433, [11432]); (11435, [11434]);
  (11437, [11436]); (11439, [11438]); (11441, [11440]); (11443, [11442]); (11445, [11444]);
  (11447, [11446]); (11449, [11448]); (11451, [11450]); (11453, [11452]); (11455, [11454]);
  (11457, [11456]); (11459, [11458]); (11461, [11460]); (11463, [11462]); (11465, [11464]);
  (11467, [11466]); (11469, [11468]); (11471, [11470]); (11473, [11472]); (11475, [11474]);
  (11477, [11476]); (11479, [11478]); (11481, [11480]); (11483, [11482]); (11485, [11484]);
  (11487, [11486]); (11489, [11488]); (11491, [11490]); (11500, [11499]); (11502, [11501]);
  (11507, [11506]); (11520, [4256]); (11521, [4257]); (11522, [4258]); (11523, [4259]);
  (11524, [4260]); (11525, [4261]); (11526, [4262]); (11527, [4263]); (11528, [4264]);
  (11529, [4265]); (11530, [4266]); (11531, [4267]); (11532, [4268]); (11533, [4269]);
  (11534, [4270]); (11535, [4271]); (11536, [4272]); (11537, [4273]); (11538, [4274]);
  (11539, [4275]); (11540, [4276]); (11541, [4277]); (11542, [4278]); (11543, [4279]);
  (11544, [4280]); (11545, [4281]); (11546, [4282]); (11547, [4283]); (11548, [4284]);
  (11549, [4285]); (11550, [4286]); (11551, [4287]); (11552, [4288]); (11553, [4289]);
  (11554, [4290]); (11555, [4291]); (11556, [4292]); (11557, [4293]); (11559, [4295]);
  (11565, [4301]); (42561, [42560]); (42563, [42562]); (42565, [42564]); (42567, [42566]);
  (42569, [42568]); (42571, [42570]); (42573, [42572]); (42575, [42574]); (42577, [42576]);
  (42579, [42578]); (42581, [42580]); (42583, [42582]); (42585, [42584]); (42587, [42586]);
  (42589, [42588]); (42591, [42590]); (42593, [42592]); (42595, [42594]); (42597, [42596]);
  (42599, [42598]); (42601, [42600]); (42603, [42602]); (42605, [42604]); (42625, [42624]);
  (42627, [42626]); (42629, [42628]); (42631, [42630]); (42633, [42632]); (42635, [42634]);
  (42637, [42636]); (42639, [42638]); (42641, [42640]); (42643, [42642]); (42645, [42644]);
  (42647, [42646]); (42649, [42648]); (42651, [42650]); (42787, [42786]); (42789, [42788]);
  (42791, [42790]); (42793, [42792]); (42795, [42794]); (42797, [42796]); (42799, [42798]);
  (42803, [42802]); (42805, [42804]); (42807, [42806]); (42809, [42808]); (42811, [42810]);
  (42813, [42812]); (42815, [42814]); (42817, [42816]); (42819, [42818]); (42821, [42820]);
  (42823, [42822]); (42825, [42824]); (42827, [42826]); (42829, [42828]); (42831, [42830]);
  (42833, [42832]); (42835, [42834]); (42837, [42836]); (42839, [42838]); (42841, [42840]);
  (42843, [42842]); (42845, [42844]); (42847, [42846]); (42849, [42848]); (42851, [42850]);
  (42853, [42852]); (42855, [42854]); (42857, [42856]); (42859, [42858]); (42861, [42860]);
  (42863, [42862]); (42874, [42873]); (42876, [42875]); (42879, [42878]); (42881, [42880]);
  (42883, [42882]); (42885, [42884]); (42887, [42886]); (42892, [42891]); (42897, [42896]);
  (42899, [42898]); (42900, [42948]); (42903, [42902]); (42905, [42904]); (42907, [42906]);
  (42909, [42908]); (42911, [42910]); (42913, [42912]); (42915, [42914]); (42917, [42916]);
  (42919, [42918]); (42921, [42920]); (42933, [42932]); (42935, [42934]); (42937, [42936]);
  (42939, [42938]); (42941, [42940]); (42943, [42942]); (42945, [42944]); (42947, [42946]);
  (42952, [42951]); (42954, [42953]); (42961, [42960]); (42967, [42966]); (42969, [42968]);
  (42998, [42997]); (43859, [42931]); (43888, [5024]); (43889, [5025]); (43890, [5026]);
  (43891, [5027]); (43892, [5028]); (43893, [5029]); (43894, [5030]); (43895, [5031]);
  (43896, [5032]); (43897, [5033]); (43898, [5034]); (43899, [5035]); (43900, [5036]);
  (43901, [5037]); (43902, [5038]); (43903, [5039]); (43904, [5040]); (43905, [5041]);
  (43906, [5042]); (43907, [5043]); (43908, [5044]); (43909, [5045]); (43910, [5046]);
  (43911, [5047]); (43912, [5048]); (43913, [5049]); (43914, [5050]); (43915, [5051]);
  (43916, [5052]); (43917, [5053]); (43918, [5054]); (43919, [5055]); (43920, [5056]);
  (43921, [5057]); (43922, [5058]); (43923, [5059]); (43924, [5060]); (43925, [5061]);
  (43926, [5062]); (43927, [5063]); (43928, [5064]); (43929, [5065]); (43930, [5066]);
  (43931, [5067]); (43932, [5068]); (43933, [5069]); (43934, [5070]); (43935, [5071]);
  (43936, [5072]); (43937, [5073]); (43938, [5074]); (43939, [5075]); (43940, [5076]);
  (43941, [5077]); (43942, [5078]); (43943, [5079]); (43944, [5080]); (43945, [5081]);
  (43946, [5082]); (43947, [5083]); (43948, [5084]); (43949, [5085]); (43950, [5086]);
  (43951, [5087]); (43952, [5088]); (43953, [5089]); (43954, [5090]); (43955, [5091]);
  (43956, [5092]); (43957, [5093]); (43958, [5094]); (43959, [5095]); (43960, [5096]);
  (43961, [5097]); (43962, [5098]); (43963, [5099]); (43964, [5100]); (43965, [5101]);
  (43966, [5102]); (43967, [5103]); (64256, [70; 70]); (64257, [70; 73]); (64258, [70; 76]);
  (64259, [70; 70; 73]); (64260, [70; 70; 76]); (64261, [83; 84]); (64262, [83; 84]); (64275, [1348; 1350]);
  (64276, [1348; 1333]); (64277, [1348; 1339]); (64278, [1358; 1350]); (64279, [1348; 1341]); (65345, [65313]);
  (65346, [65314]); (65347, [65315]); (65348, [65316]); (65349, [65317]); (65350, [65318]);
  (65351, [65319]); (65352, [65320]); (65353, [65321]); (65354, [65322]); (65355, [65323]);
  (65356, [65324]); (65357, [65325]); (65358, [65326]); (65359, [65327]); (65360, [65328]);
  (65361, [65329]); (65362, [65330]); (65363, [65331]); (65364, [65332]); (65365, [65333]);
  (65366, [65334]); (65367, [65335]); (65368, [65336]); (65369, [65337]); (65370, [65338]);
  (66600, [66560]); (66601, [66561]); (66602, [66562]); (66603, [66563]); (66604, [66564]);
  (66605, [66565]); (66606, [66566]); (66607, [66567]); (66608, [66568]); (66609, [66569]);
  (66610, [66570]); (66611, [66571]); (66612, [66572]); (66613, [66573]); (66614, [66574]);
  (66615, [66575]); (66616, [66576]); (66617, [66577]); (66618, [66578]); (66619, [66579]);
  (66620, [66580]); (66621, [66581]); (66622, [66582]); (66623, [66583]); (66624, [66584]);
  (66625, [66585]); (66626, [66586]); (66627, [66587]); (66628, [66588]); (66629, [66589]);
  (66630, [66590]); (66631, [66591]); (66632, [66592]); (66633, [66593]); (66634, [66594]);
  (66635, [66595]); (66636, [66596]); (66637, [66597]); (66638, [66598]); (66639, [66599]);
  (66776, [66736]); (66777, [66737]); (66778, [66738]); (66779, [66739]); (66780, [66740]);
  (66781, [66741]); (66782, [66742]); (66783, [66743]); (66784, [66744]); (66785, [66745]);
  (66786, [66746]); (66787, [66747]); (66788, [66748]); (66789, [66749]); (66790, [66750]);
  (66791, [66751]); (66792, [66752]); (66793, [66753]); (66794, [66754]); (66795, [66755]);
  (66796, [66756]); (66797, [66757]); (66798, [66758]); (66799, [66759]); (66800, [66760]);
  (66801, [66761]); (66802, [66762]); (66803, [66763]); (66804, [66764]); (66805, [66765]);
  (66806, [66766]); (66807, [66767]); (66808, [66768]); (66809, [66769]); (66810, [66770]);
  (66811, [66771]); (66967, [66928]); (66968, [66929]); (66969, [66930]); (66970, [66931]);
  (66971, [66932]); (66972, [66933]); (66973, [66934]); (66974, [66935]); (66975, [66936]);
  (66976, [66937]); (66977, [66938]); (66979, [66940]); (66980, [66941]); (66981, [66942]);
  (66982, [66943]); (66983, [66944]); (66984, [66945]); (66985, [66946]); (66986, [66947]);
  (66987, [66948]); (66988, [66949]); (66989, [66950]); (66990, [66951]); (66991, [66952]);
  (66992, [66953]); (66993, [66954]); (66995, [66956]); (66996, [66957]); (66997, [66958]);
  (66998, [66959]); (66999, [66960]); (67000, [66961]); (67001, [66962]); (67003, [66964]);
  (67004, [66965]); (68800, [68736]); (68801, [68737]); (68802, [68738]); (68803, [68739]);
  (68804, [68740]); (68805, [68741]); (68806, [68742]); (68807, [68743]); (68808, [68744]);
  (68809, [68745]); (68810, [68746]); (68811, [68747]); (68812, [68748]); (68813, [68749]);
  (68814, [68750]); (68815, [68751]); (68816, [68752]); (68817, [68753]); (68818, [68754]);
  (68819, [68755]); (68820, [68756]); (68821, [68757]); (68822, [68758]); (68823, [68759]);
  (68824, [68760]); (68825, [68761]); (68826, [68762]); (68827, [68763]); (68828, [68764]);
  (68829, [68765]); (68830, [68766]); (68831, [68767]); (68832, [68768]); (68833, [68769]);
  (68834, [68770]); (68835, [68771]); (68836, [68772]); (68837, [68773]); (68838, [68774]);
  (68839, [68775]); (68840, [68776]); (68841, [68777]); (68842, [68778]); (68843, [68779]);
  (68844, [68780]); (68845, [68781]); (68846, [68782]); (68847, [68783]); (68848, [68784]);
  (68849, [68785]); (68850, [68786]); (71872, [71840]); (71873, [71841]); (71874, [71842]);
  (71875, [71843]); (71876, [71844]); (71877, [71845]); (71878, [71846]); (71879, [71847]);
  (71880, [71848]); (71881, [71849]); (71882, [71850]); (71883, [71851]); (71884, [71852]);
  (71885, [71853]); (71886, [71854]); (71887, [71855]); (71888, [71856]); (71889, [71857]);
  (71890, [71858]); (71891, [71859]); (71892, [71860]); (71893, [71861]); (71894, [71862]);
  (71895, [71863]); (71896, [71864]); (71897, [71865]); (71898, [71866]); (71899, [71867]);
  (71900, [71868]); (71901, [71869]); (71902, [71870]); (71903, [71871]); (93792, [93760]);
  (93793, [93761]); (93794, [93762]); (93795, [93763]); (93796, [93764]); (93797, [93765]);
  (93798, [93766]); (93799, [93767]); (93800, [93768]); (93801, [93769]); (93802, [93770]);
  (93803, [93771]); (93804, [93772]); (93805, [93773]); (93806, [93774]); (93807, [93775]);
  (93808, [93776]); (93809, [93777]); (93810, [93778]); (93811, [93779]); (93812, [93780]);
  (93813, [93781]); (93814, [93782]); (93815, [93783]); (93816, [93784]); (93817, [93785]);
  (93818, [93786]); (93819, [93787]); (93820, [93788]); (93821, [93789]); (93822, [93790]);
  (93823, [93791]); (125218, [125184]); (125219, [125185]); (125220, [125186]); (125221, [125187]);
  (125222, [125188]); (125223, [125189]); (125224, [125190]); (125225, [125191]); (125226, [125192]);
  (125227, [125193]); (125228, [125194]); (125229, [125195]); (125230, [125196]); (125231, [125197]);
  (125232, [125198]); (125233, [125199]); (125234, [125200]); (125235, [125201]); (125236, [125202]);
  (125237, [125203]); (125238, [125204]); (125239, [125205]); (125240, [125206]); (125241, [125207]);
  (125242, [125208]); (125243, [125209]); (125244, [125210]); (125245, [125211]); (125246, [125212]);
  (125247, [125213]); (125248, [125214]); (125249, [125215]); (125250, [125216]); (125251, [125217])].

Definition upper_char (c : char) : str :=
  match find (fun e => fst e =? c) upper_table with
  | Some e => snd e
  | None => [c]
  end.

(** [s.upper()] *)
Definition upper (s : str) : str := flat_map upper_char s.

(** ** The regular expression of [is_valid_gstin_format]

    The pattern uses only anchors, literal characters and bracket classes
    with a fixed repetition count, so matching needs no backtracking. *)
Inductive re_item :=
| Caret                                        (* ^ *)
| Dollar                                       (* $ *)
| Lit (c : char)                               (* a literal character *)
| Class (ranges : list (char * char)) (n : nat). (* [a-b...]{n} *)

Definition in_range (c : char) (r : char * char) : bool :=
  (fst r <=? c) && (c <=? snd r).

Definition in_class (ranges : list (char * char)) (c : char) : bool :=
  existsb (in_range c) ranges.

(** Consume [n] characters of the class, returning what is left. *)
Fixpoint eat_class (ranges : list (char * char)) (n : nat) (s : str)
  : option str :=
  match n with
  | O => Some s
  | S n' =>
      match s with
      | c :: s' => if in_class ranges c then eat_class ranges n' s' else None
      | [] => None
      end
  end.

(** Where [$] (without MULTILINE) matches: at the end of the subject and
    just before a line feed that ends it. *)
Definition at_end (rest : str) : bool :=
  match rest with
  | [] => true
  | [c] => c =? LF
  | _ => false
  end.

(** [match_items p pos rest]: the items [p] match at offset [pos] of the
    subject, [rest] being the subject from [pos] on. *)
Fixpoint match_items (p : list re_item) (pos : nat) (rest : str) : bool :=
  match p with
  | [] => true
  | Caret :: p' => Nat.eqb pos 0 && match_items p' pos rest
  | Dollar :: p' => at_end rest && match_items p' pos rest
  | Lit c :: p' =>
      match rest with
      | x :: rest' => (x =? c) && match_items p' (S pos) rest'
      | [] => false
      end
  | Class ranges n :: p' =>
      match eat_class ranges n rest with
      | Some rest' => match_items p' (pos + n)%nat rest'
      | None => false
      end
  end.

(** [bool(re.match(p, s))]: a match anchored at offset 0. *)
Definition re_match (p : list re_item) (s : str) : bool := match_items p 0 s.

Definition digits : list (char * char) := [(ord "0", ord "9")].
Definition letters : list (char * char) := [(ord "A", ord "Z")].

(** r'^[0-9]{2}[A-Z]{5}[0-9]{4}[A-Z]{1}[1-9A-Z]{1}Z[0-9A-Z]{1}$' *)
Definition pattern : list re_item :=
  [ Caret;
    Class digits 2;
    Class letters 5;
    Class digits 4;
    Class letters 1;
    Class [(ord "1", ord "9"); (ord "A", ord "Z")] 1;
    Lit (ord "Z");
    Class [(ord "0", ord "9"); (ord "A", ord "Z")] 1;
    Dollar ].

(** ** GSTIN helpers *)

(** One-directional: from likely wrong to likely right. *)
Definition AMBIGUOUS_MAPS : list (char * char) :=
  [ (ord "8", ord "B");
    (ord "0", ord "O");
    (ord "1", ord "I");
    (ord "l", ord "1") ].

Definition is_valid_gstin_format (gstin : str) : bool :=
  if negb (Nat.eqb (length gstin) 15) then false
  else re_match pattern (upper gstin).


(** ** Exceptions and early return

    The only operations of the helpers that can raise are item assignment
    on a list ([IndexError]), subscripting a dict ([KeyError]), and [len]
    or [.upper()] applied to a value that is not a string ([TypeError],
    [AttributeError]).  [Diverge] is not a Python outcome: it marks a loop
    of the model that used up its step budget. *)
Inductive exn := IndexError | KeyError | TypeError | AttributeError.

Inductive result (A : Type) :=
| Ok (a : A)
| Raise (e : exn)
| Diverge.
Arguments Ok {A} a.
Arguments Raise {A} e.
Arguments Diverge {A}.

#[global] Instance result_ret : MRet result := fun A a => Ok a.

#[global] Instance result_bind : MBind result := fun A B k m =>
  match m with
  | Ok a => k a
  | Raise e => Raise e
  | Diverge => Diverge
  end.

#[global] Instance result_fmap : FMap result := fun A B f m =>
  match m with
  | Ok a => Ok (f a)
  | Raise e => Raise e
  | Diverge => Diverge
  end.

(** What a loop body hands back: [return v] out of the function, or the
    loop state for the next iteration. *)
Inductive flow (R S : Type) :=
| Return (v : R)
| Next (s : S).
Arguments Return {R S} v.
Arguments Next {R S} s.

(** [l[i] = x] for a non-negative index. *)
Definition setitem (l : str) (i : nat) (x : char) : result str :=
  if decide (i < length l)%nat then Ok (<[i:=x]> l) else Raise IndexError.

Section Corrector.

(** The substitution table the search runs over. *)
Variable table : list (char * char).

(** [for wrong, alt in table: ...] at position [i], where [ch] is the
    character the enumeration yielded and [chars] the working list. *)
Fixpoint try_pairs (maps : list (char * char)) (i : nat) (ch : char)
    (chars : str) : result (flow str str) :=
  match maps with
  | [] => Ok (Next chars)
  | (wrong, alt) :: maps' =>
      if ch =? wrong then
        chars1 ← setitem chars i alt;
        let candidate := chars1 in
        if is_valid_gstin_format candidate then Ok (Return candidate)
        else
          chars2 ← setitem chars1 i ch;
          try_pairs maps' i ch chars2
      else try_pairs maps' i ch chars
  end.

(** [for i, ch in enumerate(chars): ...]: the list iterator reads the
    live list, element [i] at step [i], and stops once [i] is past its
    end. *)
Fixpoint scan (fuel : nat) (i : nat) (chars : str)
    : result (flow str str) :=
  match chars !! i with
  | None => Ok (Next chars)
  | Some ch =>
      match fuel with
      | O => Diverge
      | S fuel' =>
          r ← try_pairs table i ch chars;
          match r with
          | Return candidate => Ok (Return candidate)
          | Next chars' => scan fuel' (S i) chars'
          end
      end
  end.

(** Entry [k] of the table applies at position [i] of [u] and the
    substituted string validates. *)
Definition fixes (u : str) (i k : nat) : bool :=
  match u !! i, table !! k with
  | Some ch, Some (wrong, alt) =>
      (ch =? wrong) && is_valid_gstin_format (<[i:=alt]> u)
  | _, _ => false
  end.

(** [u] with position [i] replaced by the replacement of entry [k]. *)
Definition apply_fix (u : str) (i k : nat) : str :=
  match table !! k with
  | Some (_, alt) => <[i:=alt]> u
  | None => u
  end.

Definition try_fix_with (gstin : str) : result str :=
  if is_valid_gstin_format gstin then Ok gstin
  else
    let original := gstin in
    let chars := upper gstin in
    r ← scan (length chars) 0 chars;
    match r with
    | Return candidate => Ok candidate
    | Next _ => Ok original
    end.

End Corrector.

(** [try_fix_gstin]: the search over the module-level table. *)
Definition try_fix_gstin (gstin : str) : result str :=
  try_fix_with AMBIGUOUS_MAPS gstin.


(** ** Post-processing of the extracted record

    The record is a dict from field names to JSON-like values. *)
#[local] Set Warnings "-register-all".
Inductive pyval :=
| VNone
| VBool (b : bool)
| VInt (z : Z)
| VStr (s : str)
| VList (l : list pyval)
| VDict (d : list (str * pyval)).
#[local] Set Warnings "register-all".

(** Truth value of [v] in an [if]. *)
Definition truthy (v : pyval) : bool :=
  match v with
  | VNone => false
  | VBool b => b
  | VInt z => negb (Z.eqb z 0)
  | VStr s => negb (Nat.eqb (length s) 0)
  | VList l => negb (Nat.eqb (length l) 0)
  | VDict d => negb (Nat.eqb (length d) 0)
  end.

(** [try_fix_gstin(v)] on a run-time value: a string goes through the
    corrector; on a list or dict [len] succeeds and [.upper()] is missing;
    [len] of None, a bool or an int is a type error. *)
Definition try_fix_gstin_value (v : pyval) : result pyval :=
  match v with
  | VStr s => VStr <$> try_fix_gstin s
  | VList _ | VDict _ => Raise AttributeError
  | VNone | VBool _ | VInt _ => Raise TypeError
  end.

(** [d.get(k)] *)
Definition dict_get (d : gmap str pyval) (k : str) : pyval :=
  default VNone (d !! k).

(** [d[k]] *)
Definition dict_getitem (d : gmap str pyval) (k : str) : result pyval :=
  match d !! k with
  | Some v => Ok v
  | None => Raise KeyError
  end.

(** [if processed.get(key): processed[key] = try_fix_gstin(processed[key])] *)
Definition fix_field (key : str) (processed : gmap str pyval)
  : result (gmap str pyval) :=
  if truthy (dict_get processed key) then
    v ← dict_getitem processed key;
    v' ← try_fix_gstin_value v;
    Ok (<[key:=v']> processed)
  else Ok processed.

Definition post_process_invoice_data (data : gmap str pyval)
  : result (gmap str pyval) :=
  let processed := data in
  processed ← fix_field (pystr "StockiestGST") processed;
  processed ← fix_field (pystr "InstituteGST") processed;
  Ok processed.

(** ** Notions of the specification *)

Definition is_digit (c : char) : bool := (ord "0" <=? c) && (c <=? ord "9").
Definition is_nonzero_digit (c : char) : bool :=
  (ord "1" <=? c) && (c <=? ord "9").
Definition is_upper_letter (c : char) : bool :=
  (ord "A" <=? c) && (c <=? ord "Z").
Definition is_lower_letter (c : char) : bool :=
  (ord "a" <=? c) && (c <=? ord "z").
Definition is_ascii (c : char) : bool := c <? 128.

(** The Validity Grammar, position by position (positions count from 1). *)
Definition slot_ok (pos : nat) (c : char) : bool :=
  match pos with
  | 1 | 2 => is_digit c
  | 3 | 4 | 5 | 6 | 7 => is_upper_letter c
  | 8 | 9 | 10 | 11 => is_digit c
  | 12 => is_upper_letter c
  | 13 => is_nonzero_digit c || is_upper_letter c
  | 14 => (c =? ord "Z")%N
  | 15 => is_digit c || is_upper_letter c
  | _ => false
  end%nat.

Fixpoint slots_ok (pos : nat) (u : str) : bool :=
  match u with
  | [] => true
  | c :: u' => slot_ok pos c && slots_ok (S pos) u'
  end.

Definition grammar (u : str) : bool :=
  Nat.eqb (length u) 15 && slots_ok 1 u.

(** Number of positions at which two strings disagree, over their common
    length. *)
Fixpoint mismatches (a b : str) : nat :=
  match a, b with
  | x :: a', y :: b' =>
      ((if (x =? y)%N then 0 else 1) + mismatches a' b')%nat
  | _, _ => 0%nat
  end.

(** Equal length and exactly one differing position. *)
Definition single_edit (a b : str) : bool :=
  Nat.eqb (length a) (length b) && Nat.eqb (mismatches a b) 1.

(** U+00DF, latin small letter sharp s: its upper casing is "SS". *)
Definition sharp_s : char := 223.

(** U+FB01, latin small ligature fi: its upper casing is "FI". *)
Definition ligature_fi : char := 64257.

(** The two tax-identifier fields of the record. *)
Definition is_gst_key (key : str) : Prop :=
  key = pystr "StockiestGST" \/ key = pystr "InstituteGST".

(** The table without its lower-case entry. *)
Definition UPPER_CASE_MAPS : list (char * char) :=
  [ (ord "8", ord "B");
    (ord "0", ord "O");
    (ord "1", ord "I") ].

(** A record as the extraction step hands it over. *)
Definition sample_record : gmap str pyval :=
  <[pystr "StockiestGST" := VStr (pystr "07aaf8i8134f1zm")]>
    (<[pystr "InstituteGST" := VStr []]>
       (<[pystr "IRN64Digit" := VNone]>
          (<[pystr "LineItems" := VList []]> ∅))).

(** Scan order of the search: position first, then table order. *)
Definition earlier (i' k' i k : nat) : Prop :=
  (i' < i)%nat \/ (i' = i /\ (k' < k)%nat).

(** ** The schema validator

    [CustomTaxInvoice.validate_gstin_length], the field validator of the
    two tax-identifier fields: it hands back the value to store, or raises
    [ValueError] with a message. *)
Inductive validated (A : Type) :=
| Accept (a : A)
| ValueError (msg : string).
Arguments Accept {A} a.
Arguments ValueError {A} msg.

Definition validate_gstin_length (v : str) : validated str :=
  if negb (Nat.eqb (length v) 0 || Nat.eqb (length v) 15)
  then ValueError "GSTIN must be exactly 15 characters or empty"
  else Accept v.

(** A field of the record holds a string the schema validator accepts. *)
Definition field_accepted (d : gmap str pyval) (key : str) : Prop :=
  exists s, d !! key = Some (VStr s) /\ validate_gstin_length s = Accept s.

(** The slots of the grammar that admit a letter, as list indices (from
    0): positions 3 to 7, 12, 13 and 15. *)
Definition letter_slots : list nat := [2; 3; 4; 5; 6; 11; 12; 14]%nat.

(** A record with a number where a tax identifier should be. *)
Definition ill_typed_record : gmap str pyval :=
  <[pystr "StockiestGST" := VInt 7]>
    (<[pystr "InstituteGST" := VStr []]> ∅).

(** * Properties *)

(** ** The search loops *)

Lemma setitem_ok (l : str) (i : nat) (x ch : char) :
  l !! i = Some ch -> setitem l i x = Ok (<[i:=x]> l).
Proof.
  intros Hi. unfold setitem.
  destruct (decide (i < length l)%nat) as [|Hn]; [reflexivity|].
  exfalso. apply Hn. eapply lookup_lt_Some; eassumption.
Qed.

Section CorrectorFacts.

Variable table : list (char * char).

Lemma fixes_table_end (u : str) (i k : nat) :
  (length table <= k)%nat -> fixes table u i k = false.
Proof.
  intros Hk. unfold fixes.
  rewrite (lookup_ge_None_2 table k Hk). destruct (u !! i); reflexivity.
Qed.

(** One position: the inner loop returns the substitution of the first
    entry that fixes the string, and otherwise leaves the working list
    as it found it. *)
Lemma try_pairs_spec (i : nat) (ch : char) (chars : str) :
  chars !! i = Some ch ->
  forall (maps pre : list (char * char)),
    table = pre ++ maps ->
    (try_pairs maps i ch chars = Ok (Next chars)
     /\ forall k, (length pre <= k)%nat -> fixes table chars i k = false)
    \/ (exists k, (length pre <= k)%nat
          /\ fixes table chars i k = true
          /\ (forall k', (length pre <= k')%nat -> (k' < k)%nat ->
                fixes table chars i k' = false)
          /\ try_pairs maps i ch chars
             = Ok (Return (apply_fix table chars i k))).
Proof.
  intros Hch maps. induction maps as [|[wrong alt] maps IH]; intros pre Htab.
  - left. split; [reflexivity|]. intros k Hk. apply fixes_table_end.
    rewrite Htab, length_app. simpl. lia.
  - assert (Hk0 : table !! length pre = Some (wrong, alt)).
    { rewrite Htab. apply list_lookup_middle. reflexivity. }
    assert (Htab' : table = (pre ++ [(wrong, alt)]) ++ maps).
    { rewrite <- app_assoc. exact Htab. }
    specialize (IH _ Htab'). rewrite length_app in IH. simpl in IH.
    simpl. destruct (ch =? wrong) eqn:Heq.
    + rewrite (setitem_ok chars i alt ch Hch). simpl.
      destruct (is_valid_gstin_format (<[i:=alt]> chars)) eqn:Hv.
      * right. exists (length pre). split; [lia|]. split.
        { unfold fixes. rewrite Hch, Hk0, Heq, Hv. reflexivity. }
        split; [intros; lia|].
        unfold apply_fix. rewrite Hk0. reflexivity.
      * assert (Hi : (i < length chars)%nat) by (eapply lookup_lt_Some; eauto).
        rewrite (setitem_ok (<[i:=alt]> chars) i ch alt)
          by (apply list_lookup_insert_eq; exact Hi).
        simpl. rewrite list_insert_insert_eq, (list_insert_id _ _ _ Hch).
        assert (H0 : fixes table chars i (length pre) = false).
        { unfold fixes. rewrite Hch, Hk0, Heq, Hv. reflexivity. }
        destruct IH as [[He Hno]|(k & Hk & Hf & Hmin & He)].
        -- left. split; [exact He|]. intros k Hk.
           destruct (decide (k = length pre)) as [->|]; [exact H0|].
           apply Hno. lia.
        -- right. exists k. split; [lia|]. split; [exact Hf|].
           split; [|exact He]. intros k' Hk' Hlt.
           destruct (decide (k' = length pre)) as [->|]; [exact H0|].
           apply Hmin; lia.
    + assert (H0 : fixes table chars i (length pre) = false).
      { unfold fixes. rewrite Hch, Hk0, Heq. reflexivity. }
      destruct IH as [[He Hno]|(k & Hk & Hf & Hmin & He)].
      * left. split; [exact He|]. intros k Hk.
        destruct (decide (k = length pre)) as [->|]; [exact H0|].
        apply Hno. lia.
      * right. exists k. split; [lia|]. split; [exact Hf|].
        split; [|exact He]. intros k' Hk' Hlt.
        destruct (decide (k' = length pre)) as [->|]; [exact H0|].
        apply Hmin; lia.
Qed.

Lemma fixes_past_end (u : str) (i k : nat) :
  u !! i = None -> fixes table u i k = false.
Proof. intros Hi. unfold fixes. rewrite Hi. reflexivity. Qed.

(** All positions from [i] on: the outer loop returns the first fix in
    scan order, and otherwise runs to the end of the list, which is then
    what it was at the start. *)
Lemma scan_spec (fuel : nat) :
  forall (i : nat) (chars : str),
    (length chars <= i + fuel)%nat ->
    (scan table fuel i chars = Ok (Next chars)
     /\ forall j k, (i <= j)%nat -> fixes table chars j k = false)
    \/ (exists j k, (i <= j)%nat
          /\ fixes table chars j k = true
          /\ (forall j' k', (i <= j')%nat -> earlier j' k' j k ->
                fixes table chars j' k' = false)
          /\ scan table fuel i chars
             = Ok (Return (apply_fix table chars j k))).
Proof.
  induction fuel as [|fuel IH]; intros i chars Hlen.
  - assert (Hi : chars !! i = None) by (apply lookup_ge_None_2; lia).
    left. split; [simpl; rewrite Hi; reflexivity|].
    intros j k Hj. apply fixes_past_end. apply lookup_ge_None_2. lia.
  - destruct (chars !! i) as [ch|] eqn:Hi.
    + simpl. rewrite Hi.
      destruct (try_pairs_spec i ch chars Hi table [] eq_refl)
        as [[He Hno]|(k & _ & Hf & Hmin & He)]; rewrite He; simpl.
      * destruct (IH (S i) chars ltac:(lia))
          as [[He' Hno']|(j & k & Hj & Hf & Hmin & He')].
        -- left. split; [exact He'|]. intros j k Hj.
           destruct (decide (j = i)) as [->|].
           ++ apply Hno. simpl. lia.
           ++ apply Hno'. lia.
        -- right. exists j, k. split; [lia|]. split; [exact Hf|].
           split; [|exact He']. intros j' k' Hj' Hearly.
           destruct (decide (j' = i)) as [->|].
           ++ apply Hno. simpl. lia.
           ++ apply Hmin; [lia|exact Hearly].
      * right. exists i, k. split; [lia|]. split; [exact Hf|].
        split; [|reflexivity]. intros j' k' Hj' [Hlt|[-> Hlt]]; [lia|].
        apply Hmin; simpl; lia.
    + left. split; [simpl; rewrite Hi; reflexivity|].
      intros j k Hj. apply fixes_past_end.
      apply lookup_ge_None_2. apply lookup_ge_None_1 in Hi. lia.
Qed.

(** The three ways [try_fix_with] ends: the input is valid; no entry
    fixes any position; or the first fix in scan order is returned. *)
Lemma try_fix_with_cases (s : str) :
  (is_valid_gstin_format s = true /\ try_fix_with table s = Ok s)
  \/ (is_valid_gstin_format s = false
      /\ (forall j k, fixes table (upper s) j k = false)
      /\ try_fix_with table s = Ok s)
  \/ (is_valid_gstin_format s = false
      /\ exists j k,
          fixes table (upper s) j k = true
          /\ (forall j' k', earlier j' k' j k ->
                fixes table (upper s) j' k' = false)
          /\ try_fix_with table s = Ok (apply_fix table (upper s) j k)).
Proof.
  unfold try_fix_with.
  destruct (is_valid_gstin_format s) eqn:Hv; [left; split; reflexivity|].
  right.
  destruct (scan_spec (length (upper s)) 0 (upper s) ltac:(lia))
    as [[He Hno]|(j & k & _ & Hf & Hmin & He)]; rewrite He; simpl.
  - left. split; [reflexivity|]. split; [|reflexivity].
    intros j k. apply Hno. lia.
  - right. split; [reflexivity|]. exists j, k. split; [exact Hf|].
    split; [|reflexivity]. intros j' k' Hearly. apply Hmin; [lia|exact Hearly].
Qed.

(** A fix that validates is a valid string, one substitution away from
    the working copy. *)
Lemma fixes_inv (u : str) (i k : nat) :
  fixes table u i k = true ->
  exists wrong alt,
    table !! k = Some (wrong, alt)
    /\ u !! i = Some wrong
    /\ apply_fix table u i k = <[i:=alt]> u
    /\ is_valid_gstin_format (<[i:=alt]> u) = true.
Proof.
  unfold fixes, apply_fix. intros H.
  destruct (u !! i) as [ch|]; [|discriminate].
  destruct (table !! k) as [[wrong alt]|]; [|discriminate].
  apply andb_true_iff in H as [Heq Hv]. apply N.eqb_eq in Heq. subst ch.
  exists wrong, alt. repeat split; assumption.
Qed.

End CorrectorFacts.

(** ** The corrector *)

Lemma try_fix_gstin_valid (s : str) :
  is_valid_gstin_format s = true -> try_fix_gstin s = Ok s.
Proof.
  intros Hv. unfold try_fix_gstin, try_fix_with. rewrite Hv. reflexivity.
Qed.

(** The corrector ends in [Ok]: no item assignment is out of range, and
    the step budget of the scan, the length of the working copy, is
    enough. *)
Lemma try_fix_gstin_returns (s : str) : exists r : str, try_fix_gstin s = Ok r.
Proof.
  unfold try_fix_gstin.
  destruct (try_fix_with_cases AMBIGUOUS_MAPS s)
    as [[_ He]|[(_ & _ & He)|(_ & j & k & _ & _ & He)]];
    rewrite He; eexists; reflexivity.
Qed.

(** Whatever the corrector returns is the input itself or a valid string. *)
Lemma try_fix_gstin_result (s r : str) :
  try_fix_gstin s = Ok r -> r = s \/ is_valid_gstin_format r = true.
Proof.
  unfold try_fix_gstin. intros Hr.
  destruct (try_fix_with_cases AMBIGUOUS_MAPS s)
    as [[_ He]|[(_ & _ & He)|(_ & j & k & Hf & _ & He)]];
    rewrite He in Hr; injection Hr as <-; [left; reflexivity ..|].
  right. destruct (fixes_inv _ _ _ _ Hf) as (wrong & alt & _ & _ & -> & Hv).
  exact Hv.
Qed.

(** C1: a string returned by the corrector that differs from the input
    satisfies the validity check; the corrector never returns a modified
    string that is still invalid. *)
Theorem repaired_is_valid (s r : str) :
  try_fix_gstin s = Ok r -> r <> s -> is_valid_gstin_format r = true.
Proof.
  intros Hr Hne. destruct (try_fix_gstin_result s r Hr) as [->|Hv];
    [contradiction|exact Hv].
Qed.

Lemma repaired_is_valid_witness :
  try_fix_gstin (pystr "07aaf8i8134f1zm") = Ok (pystr "07AAFBI8134F1ZM")
  /\ pystr "07AAFBI8134F1ZM" <> pystr "07aaf8i8134f1zm"
  /\ is_valid_gstin_format (pystr "07AAFBI8134F1ZM") = true.
Proof.
  assert (Hr : try_fix_gstin (pystr "07aaf8i8134f1zm")
               = Ok (pystr "07AAFBI8134F1ZM")) by (vm_compute; reflexivity).
  assert (Hne : pystr "07AAFBI8134F1ZM" <> pystr "07aaf8i8134f1zm")
    by (vm_compute; discriminate).
  split; [exact Hr|]. split; [exact Hne|].
  exact (repaired_is_valid _ _ Hr Hne).
Defined.

(** C4: the corrector is idempotent: running it on its own output gives
    that output again. *)
Theorem try_fix_gstin_idempotent (s : str) :
  try_fix_gstin s ≫= try_fix_gstin = try_fix_gstin s.
Proof.
  destruct (try_fix_gstin s) as [r| |] eqn:Hr; [|reflexivity..].
  change (try_fix_gstin r = Ok r).
  destruct (try_fix_gstin_result s r Hr) as [->|Hv];
    [exact Hr|apply try_fix_gstin_valid; exact Hv].
Qed.

(** C5, as amended: the search is greedy first-match on an input that
    fails validation.  When the input does not validate and entry [k] at
    position [i] is the first fix in scan order (no earlier position has a
    fix, and no earlier entry fixes position [i]), the corrector returns
    exactly that fix, whatever later positions or entries would also have
    fixed. *)
Theorem first_match_wins (s : str) (i k : nat) :
  is_valid_gstin_format s = false ->
  fixes AMBIGUOUS_MAPS (upper s) i k = true ->
  (forall i' k', earlier i' k' i k ->
     fixes AMBIGUOUS_MAPS (upper s) i' k' = false) ->
  try_fix_gstin s = Ok (apply_fix AMBIGUOUS_MAPS (upper s) i k).
Proof.
  intros Hv Hf Hmin. unfold try_fix_gstin.
  destruct (try_fix_with_cases AMBIGUOUS_MAPS s)
    as [[Hv' _]|[(_ & Hno & _)|(_ & j & k' & Hf' & Hmin' & He)]].
  - congruence.
  - rewrite Hno in Hf. discriminate.
  - assert (Hji : ~ earlier j k' i k).
    { intros He'. rewrite (Hmin _ _ He') in Hf'. discriminate. }
    assert (Hij : ~ earlier i k j k').
    { intros He'. rewrite (Hmin' _ _ He') in Hf. discriminate. }
    unfold earlier in Hji, Hij.
    assert (j = i) as -> by lia. assert (k' = k) as -> by lia. exact He.
Qed.

Lemma first_match_wins_witness :
  let s := pystr "07AA" ++ [sharp_s] ++ pystr "C8134F1Z0" in
  is_valid_gstin_format s = false
  /\ fixes AMBIGUOUS_MAPS (upper s) 12 2 = true
  /\ fixes AMBIGUOUS_MAPS (upper s) 14 1 = true
  /\ (forall i' k', earlier i' k' 12 2 ->
        fixes AMBIGUOUS_MAPS (upper s) i' k' = false)
  /\ try_fix_gstin s = Ok (pystr "07AASSC8134FIZ0").
Proof.
  intros s.
  assert (Hv : is_valid_gstin_format s = false) by (vm_compute; reflexivity).
  assert (Hf : fixes AMBIGUOUS_MAPS (upper s) 12 2 = true)
    by (vm_compute; reflexivity).
  assert (Hmin : forall i' k', earlier i' k' 12 2 ->
                   fixes AMBIGUOUS_MAPS (upper s) i' k' = false).
  { intros i' k' He. unfold earlier in He.
    destruct (decide (4 <= k')%nat) as [Hk|Hk];
      [apply fixes_table_end; simpl; lia|].
    do 13 (destruct i' as [|i'];
           [do 4 (destruct k' as [|k'];
                  [first [vm_compute; reflexivity | exfalso; lia]|]);
            exfalso; lia|]).
    exfalso; lia. }
  split; [exact Hv|]. split; [exact Hf|].
  split; [vm_compute; reflexivity|]. split; [exact Hmin|].
  exact (first_match_wins s 12 2 Hv Hf Hmin).
Defined.

(** C5, as stated, fails: "07AAFCI8134F1Z0" has two positions at which a
    table substitution gives a valid string (1 to I at index 12, 0 to O at
    index 14), the first of them in scan order at index 12, but the string
    validates as it is, so the corrector never searches and returns it
    unchanged. *)
Lemma first_match_on_valid_input_counterexample :
  ~ (forall (s : str) (i k : nat),
       fixes AMBIGUOUS_MAPS (upper s) i k = true ->
       (exists j k', j <> i /\ fixes AMBIGUOUS_MAPS (upper s) j k' = true) ->
       (forall i' k', earlier i' k' i k ->
          fixes AMBIGUOUS_MAPS (upper s) i' k' = false) ->
       try_fix_gstin s = Ok (apply_fix AMBIGUOUS_MAPS (upper s) i k)).
Proof.
  intros H.
  specialize (H (pystr "07AAFCI8134F1Z0") 12%nat 2%nat).
  assert (Hf : fixes AMBIGUOUS_MAPS (upper (pystr "07AAFCI8134F1Z0")) 12 2
               = true) by (vm_compute; reflexivity).
  assert (Hother : exists j k', j <> 12%nat
            /\ fixes AMBIGUOUS_MAPS (upper (pystr "07AAFCI8134F1Z0")) j k'
               = true).
  { exists 14%nat, 1%nat. split; [discriminate|vm_compute; reflexivity]. }
  assert (Hmin : forall i' k', earlier i' k' 12 2 ->
            fixes AMBIGUOUS_MAPS (upper (pystr "07AAFCI8134F1Z0")) i' k'
            = false).
  { intros i' k' He. unfold earlier in He.
    destruct (decide (4 <= k')%nat) as [Hk|Hk];
      [apply fixes_table_end; simpl; lia|].
    do 13 (destruct i' as [|i'];
           [do 4 (destruct k' as [|k'];
                  [first [vm_compute; reflexivity | exfalso; lia]|]);
            exfalso; lia|]).
    exfalso; lia. }
  specialize (H Hf Hother Hmin). vm_compute in H. discriminate H.
Qed.

(** C6: a valid input is returned exactly as given, original casing
    included. *)
Theorem valid_input_unchanged (s : str) :
  is_valid_gstin_format s = true -> try_fix_gstin s = Ok s.
Proof. apply try_fix_gstin_valid. Qed.

Lemma valid_input_unchanged_witness :
  is_valid_gstin_format (pystr "07aafci8134f1zm") = true
  /\ try_fix_gstin (pystr "07aafci8134f1zm") = Ok (pystr "07aafci8134f1zm").
Proof.
  assert (Hv : is_valid_gstin_format (pystr "07aafci8134f1zm") = true)
    by (vm_compute; reflexivity).
  split; [exact Hv|]. exact (valid_input_unchanged _ Hv).
Defined.

(** C8: both helpers are total on strings: the validator yields a
    boolean, and the corrector returns a string without raising and
    without running out of steps. *)
Theorem helpers_total (s : str) :
  (exists b : bool, is_valid_gstin_format s = b)
  /\ (exists r : str, try_fix_gstin s = Ok r).
Proof.
  split; [eexists; reflexivity|].
  destruct (try_fix_gstin s) as [r|e|] eqn:Hr; [exists r; reflexivity|..];
    destruct (try_fix_gstin_returns s) as [r' Hr']; congruence.
Qed.

(** ** Distance between input and output *)

Lemma mismatches_refl (u : str) : mismatches u u = 0%nat.
Proof.
  induction u as [|c u IH]; [reflexivity|].
  simpl. rewrite N.eqb_refl, IH. reflexivity.
Qed.

Lemma mismatches_insert (u : str) :
  forall (i : nat) (w a : char),
    u !! i = Some w -> w <> a -> mismatches u (<[i:=a]> u) = 1%nat.
Proof.
  induction u as [|c u IH]; intros i w a Hi Hne; [discriminate|].
  destruct i as [|i]; simpl in *.
  - injection Hi as ->. apply N.eqb_neq in Hne. rewrite Hne.
    rewrite mismatches_refl. reflexivity.
  - rewrite N.eqb_refl. simpl. eapply IH; eassumption.
Qed.

Lemma AMBIGUOUS_MAPS_distinct (k : nat) (wrong alt : char) :
  AMBIGUOUS_MAPS !! k = Some (wrong, alt) -> wrong <> alt.
Proof.
  do 4 (destruct k as [|k];
        [intros [= <- <-]; vm_compute; discriminate|]).
  discriminate.
Qed.

(** C2, as amended: a returned string that differs from the input has the
    length of the upper-cased input and differs from the upper-cased input
    in exactly one position. *)
Theorem repaired_single_edit_of_upper (s r : str) :
  try_fix_gstin s = Ok r -> r <> s -> single_edit (upper s) r = true.
Proof.
  unfold try_fix_gstin. intros Hr Hne.
  destruct (try_fix_with_cases AMBIGUOUS_MAPS s)
    as [[_ He]|[(_ & _ & He)|(_ & j & k & Hf & _ & He)]];
    rewrite He in Hr; injection Hr as <-; [contradiction..|].
  destruct (fixes_inv _ _ _ _ Hf) as (wrong & alt & Hk & Hj & -> & _).
  unfold single_edit. rewrite length_insert, Nat.eqb_refl.
  rewrite (mismatches_insert _ _ _ _ Hj (AMBIGUOUS_MAPS_distinct _ _ _ Hk)).
  reflexivity.
Qed.

Lemma repaired_single_edit_of_upper_witness :
  try_fix_gstin (pystr "07aaf8i8134f1zm") = Ok (pystr "07AAFBI8134F1ZM")
  /\ pystr "07AAFBI8134F1ZM" <> pystr "07aaf8i8134f1zm"
  /\ single_edit (upper (pystr "07aaf8i8134f1zm"))
                 (pystr "07AAFBI8134F1ZM") = true.
Proof.
  assert (Hr : try_fix_gstin (pystr "07aaf8i8134f1zm")
               = Ok (pystr "07AAFBI8134F1ZM")) by (vm_compute; reflexivity).
  assert (Hne : pystr "07AAFBI8134F1ZM" <> pystr "07aaf8i8134f1zm")
    by (vm_compute; discriminate).
  split; [exact Hr|]. split; [exact Hne|].
  exact (repaired_single_edit_of_upper _ _ Hr Hne).
Defined.

(** C2, as stated, fails: on a lower-case input the returned string is the
    upper-cased working copy with one substitution, so it differs from the
    input at every letter. *)
Lemma single_edit_of_input_counterexample :
  ~ (forall s r : str,
       try_fix_gstin s = Ok r -> r <> s -> single_edit s r = true).
Proof.
  intros H.
  specialize (H (pystr "07aaf8i8134f1zm") (pystr "07AAFBI8134F1ZM")).
  assert (Hr : try_fix_gstin (pystr "07aaf8i8134f1zm")
               = Ok (pystr "07AAFBI8134F1ZM")) by (vm_compute; reflexivity).
  assert (Hne : pystr "07AAFBI8134F1ZM" <> pystr "07aaf8i8134f1zm")
    by (vm_compute; discriminate).
  specialize (H Hr Hne). vm_compute in H. discriminate.
Qed.

(** ** The scenario of the lower-case l *)

(** C7, as stated, fails: the corrector does not return "07AAFC18134F1ZM"
    on "07AAFCl8134F1ZM". *)
Lemma scenario_lowercase_l_counterexample :
  try_fix_gstin (pystr "07AAFCl8134F1ZM") <> Ok (pystr "07AAFC18134F1ZM").
Proof. vm_compute. discriminate. Qed.

(** C7, as amended: "07AAFCl8134F1ZM" already validates (its l upper-cases
    to the letter L in a letter slot), so the corrector returns it
    unchanged; "07AAFC18134F1ZM" is not a valid identifier. *)
Theorem scenario_lowercase_l :
  is_valid_gstin_format (pystr "07AAFCl8134F1ZM") = true
  /\ try_fix_gstin (pystr "07AAFCl8134F1ZM") = Ok (pystr "07AAFCl8134F1ZM")
  /\ is_valid_gstin_format (pystr "07AAFC18134F1ZM") = false.
Proof. repeat split; vm_compute; reflexivity. Qed.

(** ** The validator and the grammar *)

Lemma in_class_digits (c : char) : in_class digits c = is_digit c.
Proof. unfold in_class, digits, in_range, is_digit. simpl. apply orb_false_r. Qed.

Lemma in_class_letters (c : char) : in_class letters c = is_upper_letter c.
Proof.
  unfold in_class, letters, in_range, is_upper_letter. simpl.
  apply orb_false_r.
Qed.

Lemma in_class_serial (c : char) :
  in_class [(ord "1", ord "9"); (ord "A", ord "Z")] c
  = is_nonzero_digit c || is_upper_letter c.
Proof.
  unfold in_class, in_range, is_nonzero_digit, is_upper_letter. simpl.
  rewrite orb_false_r. reflexivity.
Qed.

Lemma in_class_check (c : char) :
  in_class [(ord "0", ord "9"); (ord "A", ord "Z")] c
  = is_digit c || is_upper_letter c.
Proof.
  unfold in_class, in_range, is_digit, is_upper_letter. simpl.
  rewrite orb_false_r. reflexivity.
Qed.

Ltac split_classes :=
  cbn [match_items eat_class take drop length Nat.eqb slots_ok slot_ok andb
       Nat.add];
  rewrite <- ?in_class_check, <- ?in_class_serial, <- ?in_class_digits,
    <- ?in_class_letters;
  repeat match goal with
    | |- context [in_class ?r ?c] =>
        destruct (in_class r c);
        cbn [match_items eat_class andb]; try reflexivity
    | |- context [N.eqb ?c (ord ?a)] =>
        destruct (N.eqb c (ord a));
        cbn [match_items eat_class andb]; try reflexivity
    end;
  rewrite ?andb_true_r; try reflexivity.

(** The pattern accepts exactly a grammatical 15-character prefix followed
    by the end of the subject. *)
Lemma re_match_pattern (u : str) :
  re_match pattern u = grammar (take 15 u) && at_end (drop 15 u).
Proof.
  unfold re_match, pattern, grammar.
  do 15 (destruct u as [|? u]; [split_classes|]).
  split_classes.
Qed.

Lemma grammar_length (u : str) : grammar u = true -> length u = 15%nat.
Proof.
  unfold grammar. intros [Hl _]%andb_true_iff.
  apply Nat.eqb_eq in Hl. exact Hl.
Qed.

Lemma grammar_last (u : str) : grammar u = true -> last u <> Some LF.
Proof.
  intros Hg Hl. pose proof (grammar_length u Hg) as Hlen. unfold grammar in Hg.
  do 15 (destruct u as [|? u]; [discriminate Hlen|]).
  destruct u; [|discriminate Hlen].
  cbn in Hl. injection Hl as ->.
  cbn [length Nat.eqb slots_ok slot_ok andb] in Hg.
  rewrite !andb_true_iff in Hg. destruct_and!.
  match goal with H : is_digit LF || is_upper_letter LF = true |- _ =>
    vm_compute in H; discriminate H end.
Qed.

(** The validator, exactly: the length test is on the string as given,
    the pattern on its upper casing. *)
Lemma is_valid_gstin_format_exact (s : str) :
  is_valid_gstin_format s
  = Nat.eqb (length s) 15
    && (grammar (take 15 (upper s)) && at_end (drop 15 (upper s))).
Proof.
  unfold is_valid_gstin_format. rewrite re_match_pattern.
  destruct (Nat.eqb (length s) 15); reflexivity.
Qed.

(** ** Upper casing of ASCII text *)

Lemma ascii_forall (P : char -> bool) :
  forallb P (map N.of_nat (seq 0 128)) = true ->
  forall c, is_ascii c = true -> P c = true.
Proof.
  intros H c Hc. rewrite forallb_forall in H. apply H.
  apply in_map_iff. exists (N.to_nat c). split; [apply N2Nat.id|].
  apply in_seq. unfold is_ascii in Hc. apply N.ltb_lt in Hc. lia.
Qed.

Lemma upper_char_ascii (c : char) :
  is_ascii c = true -> length (upper_char c) = 1%nat.
Proof.
  intros Hc. apply Nat.eqb_eq.
  revert c Hc. apply (ascii_forall (fun c => Nat.eqb (length (upper_char c)) 1)).
  vm_compute. reflexivity.
Qed.

Lemma upper_ascii_length (s : str) :
  forallb is_ascii s = true -> length (upper s) = length s.
Proof.
  induction s as [|c s IH]; [reflexivity|].
  cbn [forallb]. intros [Hc Hs]%andb_true_iff.
  change (upper (c :: s)) with (upper_char c ++ upper s).
  rewrite length_app, (upper_char_ascii c Hc), (IH Hs). reflexivity.
Qed.

(** C3, as amended: the length test applies to the string as given, before
    upper casing.  For every string whose upper casing keeps its length
    (every ASCII string, with or without a final line feed) or does not end
    in a line feed, the validator answers true exactly when the string has
    15 characters and its upper casing satisfies the positional grammar.
    The empty string is rejected, and an ASCII string whose upper casing
    satisfies the grammar (a lower-case spelling of a valid identifier) is
    accepted. *)
Theorem is_valid_gstin_format_grammar :
  (forall s : str,
     length (upper s) = length s \/ last (upper s) <> Some LF ->
     (is_valid_gstin_format s = true
      <-> length s = 15%nat /\ grammar (upper s) = true))
  /\ is_valid_gstin_format [] = false
  /\ (forall s : str,
        forallb is_ascii s = true -> grammar (upper s) = true ->
        is_valid_gstin_format s = true).
Proof.
  assert (Hback : forall s, length s = 15%nat -> grammar (upper s) = true ->
                    is_valid_gstin_format s = true).
  { intros s Hlen Hg. rewrite is_valid_gstin_format_exact.
    pose proof (grammar_length _ Hg) as Hu.
    rewrite take_ge, drop_ge by lia. rewrite Hg, Hlen. reflexivity. }
  split; [|split].
  - intros s Hs. split.
    + rewrite is_valid_gstin_format_exact.
      intros [Hlen [Hg He]%andb_true_iff]%andb_true_iff.
      apply Nat.eqb_eq in Hlen. split; [exact Hlen|].
      destruct Hs as [Hsame|Hlast].
      * rewrite take_ge in Hg by lia. exact Hg.
      * pose proof (take_drop 15 (upper s)) as Hsplit.
        destruct (drop 15 (upper s)) as [|c [|c' rest]]; [| |discriminate He].
        -- rewrite app_nil_r in Hsplit. rewrite <- Hsplit. exact Hg.
        -- cbn in He. apply N.eqb_eq in He. subst c.
           exfalso. apply Hlast. rewrite <- Hsplit. apply last_snoc.
    + intros [Hlen Hg]. apply Hback; assumption.
  - vm_compute. reflexivity.
  - intros s Hascii Hg. apply Hback; [|exact Hg].
    rewrite <- (upper_ascii_length s Hascii). apply grammar_length. exact Hg.
Qed.

Lemma is_valid_gstin_format_grammar_witness :
  (last (upper (pystr "07aafci8134f1zm")) <> Some LF
   /\ forallb is_ascii (pystr "07aafci8134f1zm") = true
   /\ grammar (upper (pystr "07aafci8134f1zm")) = true
   /\ length (pystr "07aafci8134f1zm") = 15%nat
   /\ is_valid_gstin_format (pystr "07aafci8134f1zm") = true)
  /\ (length (upper (pystr "07AAFCI8134F1Z" ++ [LF]))
      = length (pystr "07AAFCI8134F1Z" ++ [LF])
      /\ last (upper (pystr "07AAFCI8134F1Z" ++ [LF])) = Some LF
      /\ (is_valid_gstin_format (pystr "07AAFCI8134F1Z" ++ [LF]) = true
          <-> length (pystr "07AAFCI8134F1Z" ++ [LF]) = 15%nat
              /\ grammar (upper (pystr "07AAFCI8134F1Z" ++ [LF])) = true)
      /\ is_valid_gstin_format (pystr "07AAFCI8134F1Z" ++ [LF]) = false).
Proof.
  assert (Hlast : last (upper (pystr "07aafci8134f1zm")) <> Some LF)
    by (vm_compute; discriminate).
  assert (Hascii : forallb is_ascii (pystr "07aafci8134f1zm") = true)
    by (vm_compute; reflexivity).
  assert (Hg : grammar (upper (pystr "07aafci8134f1zm")) = true)
    by (vm_compute; reflexivity).
  assert (Hsame : length (upper (pystr "07AAFCI8134F1Z" ++ [LF]))
                  = length (pystr "07AAFCI8134F1Z" ++ [LF]))
    by (vm_compute; reflexivity).
  split.
  - split; [exact Hlast|]. split; [exact Hascii|]. split; [exact Hg|].
    split; [reflexivity|].
    exact (proj2 (proj1 is_valid_gstin_format_grammar _ (or_intror Hlast))
                 (conj eq_refl Hg)).
  - split; [exact Hsame|]. split; [vm_compute; reflexivity|].
    split; [|vm_compute; reflexivity].
    exact (proj1 is_valid_gstin_format_grammar _ (or_introl Hsame)).
Defined.

(** C3, as stated, fails: "07AA", sharp s, "C8134F1ZM" has 14 characters
    and is rejected, although its upper casing "07AASSC8134F1ZM" has 15
    characters and satisfies the grammar. *)
Lemma grammar_after_upper_counterexample :
  ~ (forall s : str,
       is_valid_gstin_format s = true <-> grammar (upper s) = true).
Proof.
  intros H.
  destruct (H (pystr "07AA" ++ [sharp_s] ++ pystr "C8134F1ZM")) as [_ Hb].
  assert (Hg : grammar (upper (pystr "07AA" ++ [sharp_s] ++ pystr "C8134F1ZM"))
               = true) by (vm_compute; reflexivity).
  specialize (Hb Hg). vm_compute in Hb. discriminate.
Qed.

(** The other direction fails as well: a 15-character string is accepted
    whose upper casing has 16 characters, the last one a line feed. *)
Lemma valid_with_trailing_line_feed :
  is_valid_gstin_format
    (pystr "07AA" ++ [ligature_fi] ++ pystr "C8134F1ZM" ++ [LF]) = true
  /\ grammar
       (upper (pystr "07AA" ++ [ligature_fi] ++ pystr "C8134F1ZM" ++ [LF]))
     = false.
Proof. split; vm_compute; reflexivity. Qed.

(** ** The lower-case table entry *)

Lemma upper_char_not_lower (c x : char) :
  In x (upper_char c) -> is_lower_letter x = false.
Proof.
  unfold upper_char.
  destruct (find (fun e => fst e =? c) upper_table) as [e|] eqn:Hfind.
  - apply find_some in Hfind as [Hin _]. revert x.
    assert (Hall : forallb (fun e : char * str =>
                      forallb (fun x => negb (is_lower_letter x)) (snd e))
                     upper_table = true) by (vm_compute; reflexivity).
    rewrite forallb_forall in Hall. specialize (Hall e Hin).
    rewrite forallb_forall in Hall. intros x Hx.
    apply negb_true_iff. apply Hall. exact Hx.
  - intros [<-|[]]. destruct (is_lower_letter c) eqn:Hl; [|reflexivity].
    assert (Hc : is_ascii c = true).
    { unfold is_lower_letter in Hl. apply andb_true_iff in Hl as [_ Hl].
      apply N.leb_le in Hl. change (ord "z") with 122 in Hl.
      apply N.ltb_lt. lia. }
    pose proof (ascii_forall
      (fun c => negb (is_lower_letter c)
                || match find (fun e => fst e =? c) upper_table with
                   | Some _ => true
                   | None => false
                   end) ltac:(vm_compute; reflexivity) c Hc) as H.
    cbv beta in H. rewrite Hl, Hfind in H. discriminate H.
Qed.

(** No lower-case ASCII letter survives upper casing. *)
Lemma upper_not_lower (s : str) (x : char) :
  In x (upper s) -> is_lower_letter x = false.
Proof.
  unfold upper. intros (c & _ & Hx)%in_flat_map.
  eapply upper_char_not_lower; eassumption.
Qed.

Lemma try_pairs_lower_entry (i : nat) (ch : char) (chars : str) :
  (ch =? ord "l") = false ->
  try_pairs AMBIGUOUS_MAPS i ch chars = try_pairs UPPER_CASE_MAPS i ch chars.
Proof.
  intros Hl. unfold AMBIGUOUS_MAPS, UPPER_CASE_MAPS. cbn [try_pairs].
  rewrite !Hl. reflexivity.
Qed.

Lemma scan_lower_entry (fuel : nat) :
  forall (i : nat) (chars : str),
    (forall x, In x chars -> is_lower_letter x = false) ->
    scan AMBIGUOUS_MAPS fuel i chars = scan UPPER_CASE_MAPS fuel i chars.
Proof.
  induction fuel as [|fuel IH]; intros i chars Hup; cbn [scan];
    destruct (chars !! i) as [ch|] eqn:Hi; try reflexivity.
  assert (Hl : (ch =? ord "l") = false).
  { apply N.eqb_neq. intros ->.
    assert (Hin : In (ord "l") chars).
    { apply list_elem_of_In. eapply list_elem_of_lookup_2. exact Hi. }
    apply Hup in Hin. vm_compute in Hin. discriminate Hin. }
  rewrite (try_pairs_lower_entry i ch chars Hl).
  destruct (try_pairs_spec UPPER_CASE_MAPS i ch chars Hi UPPER_CASE_MAPS []
              eq_refl) as [[He _]|(k & _ & _ & _ & He)]; rewrite He; simpl.
  - apply IH. exact Hup.
  - reflexivity.
Qed.

(** C10: the entry ("l","1") is never applied.  Whatever the input, no
    character of the upper-cased working copy equals the wrong-character of
    a table entry that is a lower-case letter, so the guard of that entry
    is false at every position; the corrector behaves on every input as it
    does with the entry removed from the table. *)
Theorem lower_case_entry_never_applies :
  (forall (s : str) (i : nat) (ch wrong alt : char),
     upper s !! i = Some ch ->
     In (wrong, alt) AMBIGUOUS_MAPS ->
     is_lower_letter wrong = true ->
     (ch =? wrong) = false)
  /\ (forall (s : str) (i : nat), fixes AMBIGUOUS_MAPS (upper s) i 3 = false)
  /\ (forall s : str, try_fix_gstin s = try_fix_with UPPER_CASE_MAPS s).
Proof.
  assert (Hguard : forall (s : str) (i : nat) (ch wrong : char),
            upper s !! i = Some ch -> is_lower_letter wrong = true ->
            (ch =? wrong) = false).
  { intros s i ch wrong Hi Hw. apply N.eqb_neq. intros ->.
    assert (Hin : In wrong (upper s)).
    { apply list_elem_of_In. eapply list_elem_of_lookup_2. exact Hi. }
    apply upper_not_lower in Hin. congruence. }
  split; [|split].
  - intros s i ch wrong alt Hi _ Hw. eapply Hguard; eassumption.
  - intros s i. unfold fixes.
    destruct (upper s !! i) as [ch|] eqn:Hi; [|reflexivity].
    cbn [lookup list_lookup AMBIGUOUS_MAPS].
    rewrite (Hguard s i ch (ord "l") Hi) by (vm_compute; reflexivity).
    reflexivity.
  - intros s. unfold try_fix_gstin, try_fix_with.
    destruct (is_valid_gstin_format s); [reflexivity|].
    rewrite scan_lower_entry by apply upper_not_lower. reflexivity.
Qed.

Lemma lower_case_entry_never_applies_witness :
  upper (pystr "07AAFCl8134F1ZM") !! 6%nat = Some (ord "L")
  /\ In (ord "l", ord "1") AMBIGUOUS_MAPS
  /\ is_lower_letter (ord "l") = true
  /\ (ord "L" =? ord "l") = false.
Proof.
  assert (Hi : upper (pystr "07AAFCl8134F1ZM") !! 6%nat = Some (ord "L"))
    by (vm_compute; reflexivity).
  assert (Hin : In (ord "l", ord "1") AMBIGUOUS_MAPS)
    by (do 3 right; left; reflexivity).
  assert (Hw : is_lower_letter (ord "l") = true) by (vm_compute; reflexivity).
  split; [exact Hi|]. split; [exact Hin|]. split; [exact Hw|].
  exact (proj1 lower_case_entry_never_applies _ _ _ _ _ Hi Hin Hw).
Defined.

(** ** Post-processing *)

Lemma gst_keys_distinct : pystr "StockiestGST" <> pystr "InstituteGST".
Proof. vm_compute. discriminate. Qed.

(** One field: a present, non-empty string is replaced by its correction;
    a falsy or absent value is left alone; no other key is touched. *)
Lemma fix_field_spec (key : str) (d : gmap str pyval) :
  (forall v, d !! key = Some v -> truthy v = true -> exists s, v = VStr s) ->
  exists d',
    fix_field key d = Ok d'
    /\ (forall k, k <> key -> d' !! k = d !! k)
    /\ (truthy (dict_get d key) = false -> d' !! key = d !! key)
    /\ (forall s, d !! key = Some (VStr s) -> s <> [] ->
          exists r, try_fix_gstin s = Ok r /\ d' !! key = Some (VStr r)).
Proof.
  intros Hstr. unfold fix_field, dict_get, dict_getitem.
  destruct (d !! key) as [v|] eqn:Hk; simpl.
  - destruct (truthy v) eqn:Ht.
    + destruct (Hstr v eq_refl Ht) as [s ->].
      destruct (try_fix_gstin_returns s) as [r Hr].
      exists (<[key:=VStr r]> d). cbn. rewrite Hr. cbn.
      split; [reflexivity|]. split; [|split].
      * intros k Hne. apply lookup_insert_ne. congruence.
      * discriminate.
      * intros s' [= <-] _. exists r. split; [exact Hr|].
        apply lookup_insert_eq.
    + exists d. split; [reflexivity|]. split; [reflexivity|].
      split; [intros _; exact Hk|].
      intros s [= ->] Hne. destruct s; [contradiction|discriminate Ht].
  - exists d. split; [reflexivity|]. split; [reflexivity|].
    split; [intros _; exact Hk|]. discriminate.
Qed.

(** C9: on a record whose two tax-identifier fields hold strings (or a
    falsy value, or are absent), post-processing returns the record with
    each of the two fields replaced by its correction exactly when it is
    present and non-empty; an empty or absent tax-identifier field and
    every other field are as in the input. *)
Theorem post_process_invoice_data_spec (data : gmap str pyval) :
  (forall key v, is_gst_key key -> data !! key = Some v ->
     truthy v = true -> exists s, v = VStr s) ->
  exists processed,
    post_process_invoice_data data = Ok processed
    /\ (forall key s, is_gst_key key -> data !! key = Some (VStr s) ->
          s <> [] ->
          exists r, try_fix_gstin s = Ok r
                    /\ processed !! key = Some (VStr r))
    /\ (forall key, is_gst_key key -> truthy (dict_get data key) = false ->
          processed !! key = data !! key)
    /\ (forall key, ~ is_gst_key key -> processed !! key = data !! key).
Proof.
  intros Hstr. unfold post_process_invoice_data.
  pose proof gst_keys_distinct as Hne.
  destruct (fix_field_spec (pystr "StockiestGST") data)
    as (d1 & He1 & Hframe1 & Hskip1 & Hfix1).
  { intros v. apply Hstr. left. reflexivity. }
  destruct (fix_field_spec (pystr "InstituteGST") d1)
    as (d2 & He2 & Hframe2 & Hskip2 & Hfix2).
  { intros v. rewrite Hframe1 by congruence. apply Hstr. right. reflexivity. }
  exists d2. rewrite He1. cbn [mbind result_bind]. rewrite He2.
  cbn [mbind result_bind].
  split; [reflexivity|]. split; [|split].
  - intros key s [->| ->] Hk Hs.
    + destruct (Hfix1 s Hk Hs) as (r & Hr & Hd1). exists r.
      split; [exact Hr|]. rewrite Hframe2 by exact Hne. exact Hd1.
    + apply Hfix2; [|exact Hs]. rewrite Hframe1 by congruence. exact Hk.
  - intros key [->| ->] Hf.
    + rewrite Hframe2 by exact Hne. apply Hskip1. exact Hf.
    + rewrite <- (Hframe1 (pystr "InstituteGST")) by congruence.
      apply Hskip2. unfold dict_get in *.
      rewrite Hframe1 by congruence. exact Hf.
  - intros key Hkey.
    assert (key <> pystr "StockiestGST") by (intros ->; apply Hkey; left; reflexivity).
    assert (key <> pystr "InstituteGST") by (intros ->; apply Hkey; right; reflexivity).
    rewrite Hframe2, Hframe1 by assumption. reflexivity.
Qed.

Lemma post_process_invoice_data_spec_witness :
  (forall key v, is_gst_key key -> sample_record !! key = Some v ->
     truthy v = true -> exists s, v = VStr s)
  /\ exists processed,
       post_process_invoice_data sample_record = Ok processed
       /\ processed !! pystr "StockiestGST"
          = Some (VStr (pystr "07AAFBI8134F1ZM"))
       /\ processed !! pystr "InstituteGST" = Some (VStr [])
       /\ processed !! pystr "LineItems" = Some (VList []).
Proof.
  assert (Hstr : forall key v, is_gst_key key ->
            sample_record !! key = Some v -> truthy v = true ->
            exists s, v = VStr s).
  { intros key v [->| ->] Hk _; vm_compute in Hk; injection Hk as <-;
      eexists; reflexivity. }
  split; [exact Hstr|].
  destruct (post_process_invoice_data_spec sample_record Hstr)
    as (processed & He & Hfix & Hskip & Hframe).
  exists processed. split; [exact He|]. split; [|split].
  - destruct (Hfix (pystr "StockiestGST") (pystr "07aaf8i8134f1zm"))
      as (r & Hr & Hp); [left; reflexivity|vm_compute; reflexivity|
                         vm_compute; discriminate|].
    vm_compute in Hr. injection Hr as <-. exact Hp.
  - rewrite Hskip; [vm_compute; reflexivity|right; reflexivity|
                    vm_compute; reflexivity].
  - rewrite Hframe; [vm_compute; reflexivity|].
    intros [H|H]; vm_compute in H; discriminate H.
Defined.

(** * Further properties of the helpers *)

(** ** Upper casing is idempotent *)

Lemma upper_char_fixed (c x : char) :
  In x (upper_char c) -> upper_char x = [x].
Proof.
  unfold upper_char at 1.
  destruct (find (fun e => fst e =? c) upper_table) as [e|] eqn:Hfind.
  - apply find_some in Hfind as [Hin _].
    assert (Hall : forallb (fun e : char * str =>
                      forallb (fun x =>
                        match find (fun e' => fst e' =? x) upper_table with
                        | Some _ => false
                        | None => true
                        end) (snd e))
                     upper_table = true) by (vm_compute; reflexivity).
    rewrite forallb_forall in Hall. specialize (Hall e Hin).
    rewrite forallb_forall in Hall. intros Hx. specialize (Hall x Hx).
    unfold upper_char.
    destruct (find (fun e' => fst e' =? x) upper_table);
      [discriminate Hall|reflexivity].
  - intros [<-|[]]. unfold upper_char. rewrite Hfind. reflexivity.
Qed.

Lemma upper_fixed (u : str) :
  (forall x, In x u -> upper_char x = [x]) -> upper u = u.
Proof.
  induction u as [|c u IH]; intros H; [reflexivity|].
  change (upper (c :: u)) with (upper_char c ++ upper u).
  rewrite (H c) by (left; reflexivity).
  rewrite IH by (intros x Hx; apply H; right; exact Hx). reflexivity.
Qed.

Lemma upper_chars_fixed (s : str) (x : char) :
  In x (upper s) -> upper_char x = [x].
Proof.
  unfold upper. intros (c & _ & Hx)%in_flat_map.
  eapply upper_char_fixed; eassumption.
Qed.

Lemma upper_idempotent (s : str) : upper (upper s) = upper s.
Proof. apply upper_fixed. apply upper_chars_fixed. Qed.

(** ** The grammar, position by position *)

Lemma slots_ok_lookup (u : str) :
  forall (pos i : nat) (c : char),
    slots_ok pos u = true -> u !! i = Some c ->
    slot_ok (pos + i) c = true.
Proof.
  induction u as [|x u IH]; intros pos i c Hs Hi; [discriminate Hi|].
  cbn [slots_ok] in Hs. apply andb_true_iff in Hs as [Hx Hu].
  destruct i as [|i].
  - injection Hi as <-. rewrite Nat.add_0_r. exact Hx.
  - replace (pos + S i)%nat with (S pos + i)%nat by lia.
    apply IH; assumption.
Qed.

Lemma slots_ok_intro (u : str) :
  forall pos : nat,
    (forall i c, u !! i = Some c -> slot_ok (pos + i) c = true) ->
    slots_ok pos u = true.
Proof.
  induction u as [|x u IH]; intros pos H; [reflexivity|].
  cbn [slots_ok]. apply andb_true_iff. split.
  - specialize (H 0%nat x eq_refl). rewrite Nat.add_0_r in H. exact H.
  - apply IH. intros i c Hi. specialize (H (S i) c Hi).
    replace (pos + S i)%nat with (S pos + i)%nat in H by lia. exact H.
Qed.

Lemma grammar_lookup (u : str) (i : nat) (c : char) :
  grammar u = true -> u !! i = Some c -> slot_ok (S i) c = true.
Proof.
  unfold grammar. intros [_ Hs]%andb_true_iff Hi.
  exact (slots_ok_lookup u 1 i c Hs Hi).
Qed.

Lemma grammar_intro (u : str) :
  length u = 15%nat ->
  (forall i c, u !! i = Some c -> slot_ok (S i) c = true) ->
  grammar u = true.
Proof.
  intros Hlen H. unfold grammar. rewrite Hlen. cbn [Nat.eqb andb].
  apply slots_ok_intro. exact H.
Qed.

Lemma is_valid_length (s : str) :
  is_valid_gstin_format s = true -> length s = 15%nat.
Proof.
  rewrite is_valid_gstin_format_exact. intros [Hl _]%andb_true_iff.
  apply Nat.eqb_eq. exact Hl.
Qed.

(** On a string that upper casing leaves alone, the validator is the
    grammar. *)
Lemma is_valid_upper_fixed (r : str) :
  upper r = r -> is_valid_gstin_format r = grammar r.
Proof.
  intros Hr. rewrite is_valid_gstin_format_exact, Hr.
  destruct (Nat.eqb (length r) 15) eqn:Hl.
  - apply Nat.eqb_eq in Hl. rewrite take_ge, drop_ge by lia.
    cbn. apply andb_true_r.
  - unfold grammar. rewrite Hl. reflexivity.
Qed.

(** ** What a repair looks like *)

Lemma AMBIGUOUS_MAPS_alt_fixed (k : nat) (wrong alt : char) :
  AMBIGUOUS_MAPS !! k = Some (wrong, alt) -> upper_char alt = [alt].
Proof.
  do 4 (destruct k as [|k];
        [intros [= <- <-]; vm_compute; reflexivity|]).
  discriminate.
Qed.

(** A fix of an upper-cased string: its entry is one of the first three,
    and the fixed string satisfies the grammar as it stands. *)
Lemma fixes_upper (s : str) (i k : nat) :
  fixes AMBIGUOUS_MAPS (upper s) i k = true ->
  exists wrong alt,
    UPPER_CASE_MAPS !! k = Some (wrong, alt)
    /\ upper s !! i = Some wrong
    /\ apply_fix AMBIGUOUS_MAPS (upper s) i k = <[i:=alt]> (upper s)
    /\ grammar (<[i:=alt]> (upper s)) = true.
Proof.
  intros Hf.
  destruct (fixes_inv _ _ _ _ Hf) as (wrong & alt & Hk & Hi & Happ & Hv).
  exists wrong, alt.
  assert (Hk3 : UPPER_CASE_MAPS !! k = Some (wrong, alt)).
  { destruct k as [|[|[|[|k]]]]; try exact Hk.
    injection Hk as <- <-.
    assert (Hin : In (ord "l") (upper s)).
    { apply list_elem_of_In. eapply list_elem_of_lookup_2. exact Hi. }
    apply upper_not_lower in Hin. vm_compute in Hin. discriminate Hin. }
  split; [exact Hk3|]. split; [exact Hi|]. split; [exact Happ|].
  rewrite <- is_valid_upper_fixed; [exact Hv|].
  apply upper_fixed. intros x Hx.
  apply list_elem_of_In, list_elem_of_lookup_1 in Hx as [j Hj].
  apply list_lookup_insert_Some in Hj as [(_ & <- & _)|[_ Hj]].
  - eapply AMBIGUOUS_MAPS_alt_fixed. exact Hk.
  - apply (upper_chars_fixed s). apply list_elem_of_In.
    eapply list_elem_of_lookup_2. exact Hj.
Qed.

(** The three ways the corrector ends, for the module-level table. *)
Lemma try_fix_gstin_cases (s r : str) :
  try_fix_gstin s = Ok r ->
  r = s
  \/ (is_valid_gstin_format s = false
      /\ exists i k wrong alt,
          fixes AMBIGUOUS_MAPS (upper s) i k = true
          /\ UPPER_CASE_MAPS !! k = Some (wrong, alt)
          /\ upper s !! i = Some wrong
          /\ r = <[i:=alt]> (upper s)
          /\ grammar r = true).
Proof.
  unfold try_fix_gstin. intros Hr.
  destruct (try_fix_with_cases AMBIGUOUS_MAPS s)
    as [[_ He]|[(_ & _ & He)|(Hv & i & k & Hf & _ & He)]];
    rewrite He in Hr; injection Hr as <-; [left; reflexivity..|].
  right. split; [exact Hv|].
  destruct (fixes_upper s i k Hf) as (wrong & alt & Hk & Hi & -> & Hg).
  exists i, k, wrong, alt. repeat split; assumption.
Qed.

(** X1: a repaired string is in canonical form: it satisfies the positional
    grammar as it stands, with no case folding left to do, so it consists
    of exactly 15 digits and upper-case letters. *)
Theorem repaired_is_canonical (s r : str) :
  try_fix_gstin s = Ok r -> r <> s -> grammar r = true.
Proof.
  intros Hr Hne.
  destruct (try_fix_gstin_cases s r Hr)
    as [->|(_ & i & k & wrong & alt & _ & _ & _ & _ & Hg)];
    [contradiction|exact Hg].
Qed.

Lemma repaired_is_canonical_witness :
  try_fix_gstin (pystr "07aaf8i8134f1zm") = Ok (pystr "07AAFBI8134F1ZM")
  /\ pystr "07AAFBI8134F1ZM" <> pystr "07aaf8i8134f1zm"
  /\ grammar (pystr "07AAFBI8134F1ZM") = true.
Proof.
  assert (Hr : try_fix_gstin (pystr "07aaf8i8134f1zm")
               = Ok (pystr "07AAFBI8134F1ZM")) by (vm_compute; reflexivity).
  assert (Hne : pystr "07AAFBI8134F1ZM" <> pystr "07aaf8i8134f1zm")
    by (vm_compute; discriminate).
  split; [exact Hr|]. split; [exact Hne|].
  exact (repaired_is_canonical _ _ Hr Hne).
Defined.

Lemma letter_in_letter_slot (i k : nat) (wrong alt : char) :
  UPPER_CASE_MAPS !! k = Some (wrong, alt) ->
  (i < 15)%nat -> slot_ok (S i) alt = true -> In i letter_slots.
Proof.
  intros Hk Hi.
  destruct k as [|[|[|k]]]; [| | |discriminate Hk];
    injection Hk as <- <-;
    do 15 (destruct i as [|i];
           [vm_compute; intros H;
            first [discriminate H | intuition congruence]|]);
    exfalso; lia.
Qed.

(** X2: a repair only ever turns one of the digits 8, 0, 1 of the
    upper-cased input into the letter B, O, I, and only in a slot where the
    grammar admits a letter; the digit slots and the fixed Z are never
    rewritten. *)
Theorem repair_is_digit_to_letter (s r : str) :
  try_fix_gstin s = Ok r -> r <> s ->
  exists (i : nat) (wrong alt : char),
    In (wrong, alt) UPPER_CASE_MAPS
    /\ In i letter_slots
    /\ upper s !! i = Some wrong
    /\ r = <[i:=alt]> (upper s).
Proof.
  intros Hr Hne.
  destruct (try_fix_gstin_cases s r Hr)
    as [->|(_ & i & k & wrong & alt & _ & Hk & Hi & -> & Hg)];
    [contradiction|].
  exists i, wrong, alt.
  assert (Hlt : (i < length (upper s))%nat) by (eapply lookup_lt_Some; eauto).
  split; [apply list_elem_of_In; eapply list_elem_of_lookup_2; exact Hk|].
  split; [|split; [exact Hi|reflexivity]].
  apply (letter_in_letter_slot i k wrong alt Hk).
  - apply grammar_length in Hg. rewrite length_insert in Hg. lia.
  - apply (grammar_lookup _ _ _ Hg). apply list_lookup_insert_eq. exact Hlt.
Qed.

Lemma repair_is_digit_to_letter_witness :
  try_fix_gstin (pystr "07aaf8i8134f1zm") = Ok (pystr "07AAFBI8134F1ZM")
  /\ pystr "07AAFBI8134F1ZM" <> pystr "07aaf8i8134f1zm"
  /\ exists (i : nat) (wrong alt : char),
       In (wrong, alt) UPPER_CASE_MAPS
       /\ In i letter_slots
       /\ upper (pystr "07aaf8i8134f1zm") !! i = Some wrong
       /\ pystr "07AAFBI8134F1ZM"
          = <[i:=alt]> (upper (pystr "07aaf8i8134f1zm")).
Proof.
  assert (Hr : try_fix_gstin (pystr "07aaf8i8134f1zm")
               = Ok (pystr "07AAFBI8134F1ZM")) by (vm_compute; reflexivity).
  assert (Hne : pystr "07AAFBI8134F1ZM" <> pystr "07aaf8i8134f1zm")
    by (vm_compute; discriminate).
  split; [exact Hr|]. split; [exact Hne|].
  exact (repair_is_digit_to_letter _ _ Hr Hne).
Defined.

(** ** When the corrector leaves its input alone *)

Lemma no_fix_unchanged (s : str) :
  (forall i k, fixes AMBIGUOUS_MAPS (upper s) i k = false) ->
  try_fix_gstin s = Ok s.
Proof.
  intros Hno. unfold try_fix_gstin.
  destruct (try_fix_with_cases AMBIGUOUS_MAPS s)
    as [[_ He]|[(_ & _ & He)|(_ & i & k & Hf & _ & _)]]; try exact He.
  rewrite Hno in Hf. discriminate Hf.
Qed.

(** X3: the corrector returns its input unchanged exactly when the input
    already validates or no single table substitution on the upper-cased
    input validates. *)
Theorem unchanged_iff_valid_or_no_fix (s : str) :
  try_fix_gstin s = Ok s
  <-> is_valid_gstin_format s = true
      \/ (forall i k, fixes AMBIGUOUS_MAPS (upper s) i k = false).
Proof.
  unfold try_fix_gstin.
  destruct (try_fix_with_cases AMBIGUOUS_MAPS s)
    as [[Hv He]|[(Hv & Hno & He)|(Hv & i & k & Hf & _ & He)]].
  - split; [intros _; left; exact Hv|intros _; exact He].
  - split; [intros _; right; exact Hno|intros _; exact He].
  - split.
    + rewrite He. intros [= Heq]. exfalso.
      destruct (fixes_inv _ _ _ _ Hf) as (wrong & alt & _ & _ & Happ & Hv').
      rewrite <- Happ, Heq in Hv'. congruence.
    + intros [Hv'|Hno]; [congruence|]. rewrite Hno in Hf. discriminate Hf.
Qed.

(** X4: an input whose upper casing does not have exactly 15 characters
    (the empty string, a truncated or an over-long identifier) is never
    repaired: it comes back unchanged. *)
Theorem wrong_length_unchanged (s : str) :
  length (upper s) <> 15%nat -> try_fix_gstin s = Ok s.
Proof.
  intros Hlen. apply no_fix_unchanged. intros i k.
  destruct (fixes AMBIGUOUS_MAPS (upper s) i k) eqn:Hf; [|reflexivity].
  destruct (fixes_inv _ _ _ _ Hf) as (wrong & alt & _ & _ & _ & Hv).
  apply is_valid_length in Hv. rewrite length_insert in Hv. contradiction.
Qed.

Lemma wrong_length_unchanged_witness :
  length (upper (pystr "07AAFC8134F1ZM")) <> 15%nat
  /\ try_fix_gstin (pystr "07AAFC8134F1ZM") = Ok (pystr "07AAFC8134F1ZM").
Proof.
  assert (Hlen : length (upper (pystr "07AAFC8134F1ZM")) <> 15%nat)
    by (vm_compute; discriminate).
  split; [exact Hlen|]. exact (wrong_length_unchanged _ Hlen).
Defined.

(** X5: an input whose upper casing contains none of the characters 8, 0
    and 1 is returned unchanged, whether it validates or not. *)
Theorem no_ambiguous_digit_unchanged (s : str) :
  (forall c, In c (upper s) ->
     c <> ord "8" /\ c <> ord "0" /\ c <> ord "1") ->
  try_fix_gstin s = Ok s.
Proof.
  intros Hnone. apply no_fix_unchanged. intros i k.
  destruct (fixes AMBIGUOUS_MAPS (upper s) i k) eqn:Hf; [|reflexivity].
  destruct (fixes_upper s i k Hf) as (wrong & alt & Hk & Hi & _ & _).
  assert (Hin : In wrong (upper s)).
  { apply list_elem_of_In. eapply list_elem_of_lookup_2. exact Hi. }
  destruct (Hnone wrong Hin) as (H8 & H0 & H1).
  destruct k as [|[|[|k]]]; [| | |discriminate Hk];
    injection Hk as <- <-; contradiction.
Qed.

Lemma no_ambiguous_digit_unchanged_witness :
  (forall c, In c (upper (pystr "27AAPFU2939F2ZV")) ->
     c <> ord "8" /\ c <> ord "0" /\ c <> ord "1")
  /\ try_fix_gstin (pystr "27AAPFU2939F2ZV") = Ok (pystr "27AAPFU2939F2ZV").
Proof.
  assert (Hnone : forall c, In c (upper (pystr "27AAPFU2939F2ZV")) ->
            c <> ord "8" /\ c <> ord "0" /\ c <> ord "1").
  { intros c Hc. vm_compute in Hc.
    repeat (destruct Hc as [<-|Hc];
            [repeat split; vm_compute; discriminate|]).
    destruct Hc. }
  split; [exact Hnone|]. exact (no_ambiguous_digit_unchanged _ Hnone).
Defined.

(** ** The repair is unique *)

Lemma UPPER_CASE_MAPS_injective (k k' : nat) (wrong alt alt' : char) :
  UPPER_CASE_MAPS !! k = Some (wrong, alt) ->
  UPPER_CASE_MAPS !! k' = Some (wrong, alt') -> k = k'.
Proof.
  destruct k as [|[|[|k]]]; [| | |discriminate];
    (destruct k' as [|[|[|k']]]; [| | |discriminate]);
    intros [= <- <-] [= H]; first [reflexivity | discriminate H].
Qed.

(** X6: when upper casing keeps the length of the input (every ASCII
    input), an input that fails validation has at most one fix: two
    substitutions that each validate are the same position and the same
    table entry.  On such inputs the scan order never decides the
    result. *)
Theorem fix_unique (s : str) (i k j k' : nat) :
  length (upper s) = length s ->
  is_valid_gstin_format s = false ->
  fixes AMBIGUOUS_MAPS (upper s) i k = true ->
  fixes AMBIGUOUS_MAPS (upper s) j k' = true ->
  i = j /\ k = k'.
Proof.
  intros Hlen Hv Hf Hf'.
  destruct (fixes_upper s i k Hf) as (w & a & Hk & Hi & _ & Hg).
  destruct (fixes_upper s j k' Hf') as (w' & a' & Hk' & Hj & _ & Hg').
  destruct (decide (i = j)) as [<-|Hne].
  - split; [reflexivity|]. rewrite Hi in Hj. injection Hj as <-.
    eapply UPPER_CASE_MAPS_injective; eassumption.
  - exfalso.
    assert (Hu : grammar (upper s) = true).
    { apply grammar_intro.
      - apply grammar_length in Hg. rewrite length_insert in Hg. exact Hg.
      - intros p c Hp. destruct (decide (p = i)) as [->|Hpi].
        + apply (grammar_lookup _ _ _ Hg').
          rewrite list_lookup_insert_ne by congruence. exact Hp.
        + apply (grammar_lookup _ _ _ Hg).
          rewrite list_lookup_insert_ne by congruence. exact Hp. }
    rewrite is_valid_gstin_format_exact in Hv.
    pose proof (grammar_length _ Hu) as Hl15.
    rewrite take_ge, drop_ge, Hu, <- Hlen, Hl15 in Hv by lia.
    discriminate Hv.
Qed.

Lemma fix_unique_witness :
  let s := pystr "07aaf8i8134f1zm" in
  length (upper s) = length s
  /\ is_valid_gstin_format s = false
  /\ fixes AMBIGUOUS_MAPS (upper s) 5 0 = true
  /\ (5 = 5 /\ 0 = 0)%nat.
Proof.
  intros s.
  assert (Hlen : length (upper s) = length s) by (vm_compute; reflexivity).
  assert (Hv : is_valid_gstin_format s = false) by (vm_compute; reflexivity).
  assert (Hf : fixes AMBIGUOUS_MAPS (upper s) 5 0 = true)
    by (vm_compute; reflexivity).
  split; [exact Hlen|]. split; [exact Hv|]. split; [exact Hf|].
  exact (fix_unique s 5 0 5 0 Hlen Hv Hf Hf).
Defined.

(** ** Letter case *)

Lemma is_valid_upper_same (s : str) :
  length (upper s) = length s ->
  is_valid_gstin_format (upper s) = is_valid_gstin_format s.
Proof.
  intros Hlen. rewrite !is_valid_gstin_format_exact.
  rewrite upper_idempotent, Hlen. reflexivity.
Qed.

(** X7: validation does not depend on letter case: when upper casing keeps
    the length of the input (every ASCII input), the input and its upper
    casing get the same answer. *)
Theorem is_valid_gstin_format_upper (s : str) :
  length (upper s) = length s ->
  is_valid_gstin_format (upper s) = is_valid_gstin_format s.
Proof. apply is_valid_upper_same. Qed.

Lemma is_valid_gstin_format_upper_witness :
  length (upper (pystr "07aafci8134f1zm")) = length (pystr "07aafci8134f1zm")
  /\ is_valid_gstin_format (upper (pystr "07aafci8134f1zm"))
     = is_valid_gstin_format (pystr "07aafci8134f1zm").
Proof.
  assert (Hlen : length (upper (pystr "07aafci8134f1zm"))
                 = length (pystr "07aafci8134f1zm"))
    by (vm_compute; reflexivity).
  split; [exact Hlen|]. exact (is_valid_gstin_format_upper _ Hlen).
Defined.

(** X8: the repair depends on the upper casing only: when upper casing
    keeps the length of the input, a repair returned for an input is also
    what the corrector returns for the upper-cased input. *)
Theorem repair_of_upper (s r : str) :
  length (upper s) = length s ->
  try_fix_gstin s = Ok r -> r <> s ->
  try_fix_gstin (upper s) = Ok r.
Proof.
  intros Hlen Hr Hne. unfold try_fix_gstin, try_fix_with in *.
  rewrite (is_valid_upper_same s Hlen), upper_idempotent.
  destruct (is_valid_gstin_format s);
    [injection Hr as <-; contradiction|].
  destruct (scan AMBIGUOUS_MAPS (length (upper s)) 0 (upper s))
    as [[c|chars]|e|]; cbn in *; try discriminate Hr; [exact Hr|].
  injection Hr as <-. contradiction.
Qed.

Lemma repair_of_upper_witness :
  let s := pystr "07aaf8i8134f1zm" in
  let r := pystr "07AAFBI8134F1ZM" in
  length (upper s) = length s
  /\ try_fix_gstin s = Ok r
  /\ r <> s
  /\ try_fix_gstin (upper s) = Ok r.
Proof.
  intros s r.
  assert (Hlen : length (upper s) = length s) by (vm_compute; reflexivity).
  assert (Hr : try_fix_gstin s = Ok r) by (vm_compute; reflexivity).
  assert (Hne : r <> s) by (vm_compute; discriminate).
  split; [exact Hlen|]. split; [exact Hr|]. split; [exact Hne|].
  exact (repair_of_upper s r Hlen Hr Hne).
Defined.

(** ** The corrector and the schema validator *)

Lemma validate_gstin_length_accepts (v : str) :
  validate_gstin_length v = Accept v
  <-> length v = 0%nat \/ length v = 15%nat.
Proof.
  unfold validate_gstin_length.
  destruct (Nat.eqb_spec (length v) 0) as [H0|H0];
    destruct (Nat.eqb_spec (length v) 15) as [H15|H15]; cbn;
    split; try (intros _; (reflexivity || tauto));
    first [discriminate | intros [?|?]; contradiction].
Qed.

Lemma try_fix_gstin_accepted (s r : str) :
  validate_gstin_length s = Accept s ->
  try_fix_gstin s = Ok r ->
  validate_gstin_length r = Accept r.
Proof.
  intros Hs Hr.
  destruct (try_fix_gstin_cases s r Hr)
    as [->|(_ & i & k & wrong & alt & _ & _ & _ & _ & Hg)]; [exact Hs|].
  apply validate_gstin_length_accepts. right. apply grammar_length. exact Hg.
Qed.

(** X9: the corrector keeps the length constraint of the schema: applied
    to a string the field validator accepts (empty or 15 characters), it
    returns a string the field validator accepts. *)
Theorem corrector_keeps_schema_length (s r : str) :
  validate_gstin_length s = Accept s ->
  try_fix_gstin s = Ok r ->
  validate_gstin_length r = Accept r.
Proof. apply try_fix_gstin_accepted. Qed.

Lemma corrector_keeps_schema_length_witness :
  validate_gstin_length (pystr "07aaf8i8134f1zm")
  = Accept (pystr "07aaf8i8134f1zm")
  /\ try_fix_gstin (pystr "07aaf8i8134f1zm") = Ok (pystr "07AAFBI8134F1ZM")
  /\ validate_gstin_length (pystr "07AAFBI8134F1ZM")
     = Accept (pystr "07AAFBI8134F1ZM").
Proof.
  assert (Hs : validate_gstin_length (pystr "07aaf8i8134f1zm")
               = Accept (pystr "07aaf8i8134f1zm")) by reflexivity.
  assert (Hr : try_fix_gstin (pystr "07aaf8i8134f1zm")
               = Ok (pystr "07AAFBI8134F1ZM")) by (vm_compute; reflexivity).
  split; [exact Hs|]. split; [exact Hr|].
  exact (corrector_keeps_schema_length _ _ Hs Hr).
Defined.

(** ** More on post-processing *)

Lemma try_fix_gstin_settled (s r : str) :
  try_fix_gstin s = Ok r -> try_fix_gstin r = Ok r.
Proof.
  intros Hr. destruct (try_fix_gstin_result s r Hr) as [->|Hv];
    [exact Hr|apply try_fix_gstin_valid; exact Hv].
Qed.

Lemma try_fix_gstin_nonempty (s r : str) :
  try_fix_gstin s = Ok r -> s <> [] -> r <> [].
Proof.
  intros Hr Hs. destruct (try_fix_gstin_result s r Hr) as [->|Hv];
    [exact Hs|]. apply is_valid_length in Hv. intros ->. discriminate Hv.
Qed.

(** What one field update did, when it did not raise. *)
Lemma fix_field_inv (key : str) (d d' : gmap str pyval) :
  fix_field key d = Ok d' ->
  (truthy (dict_get d key) = false /\ d' = d)
  \/ (exists s r, d !! key = Some (VStr s) /\ s <> []
        /\ try_fix_gstin s = Ok r /\ d' = <[key:=VStr r]> d).
Proof.
  unfold fix_field, dict_get, dict_getitem.
  destruct (d !! key) as [v|] eqn:Hk; simpl.
  - destruct (truthy v) eqn:Ht; [|intros [= <-]; left; split; reflexivity].
    destruct v as [| | |s| |]; cbn; try discriminate.
    destruct (try_fix_gstin s) as [r| |] eqn:Hr; cbn; try discriminate.
    intros [= <-]. right. exists s, r. split; [reflexivity|].
    split; [|split; [exact Hr|reflexivity]].
    intros ->. discriminate Ht.
  - intros [= <-]. left. split; reflexivity.
Qed.

Lemma fix_field_frame (key k : str) (d d' : gmap str pyval) :
  fix_field key d = Ok d' -> k <> key -> d' !! k = d !! k.
Proof.
  intros [[_ ->]|(s & r & _ & _ & _ & ->)]%fix_field_inv Hne;
    [reflexivity|]. apply lookup_insert_ne. congruence.
Qed.

(** A field update that did not raise leaves nothing more to do. *)
Lemma fix_field_settled (key : str) (d d' : gmap str pyval) :
  fix_field key d = Ok d' -> fix_field key d' = Ok d'.
Proof.
  intros He.
  destruct (fix_field_inv key d d' He) as [[_ ->]|(s & r & _ & Hs & Hr & ->)];
    [exact He|].
  unfold fix_field, dict_get, dict_getitem. rewrite lookup_insert_eq. simpl.
  pose proof (try_fix_gstin_nonempty s r Hr Hs) as Hne.
  destruct r as [|c r]; [contradiction|]. cbn [length Nat.eqb negb].
  cbn [mbind result_bind try_fix_gstin_value].
  rewrite (try_fix_gstin_settled _ _ Hr). cbn.
  rewrite insert_insert_eq. reflexivity.
Qed.

(** Whether a field update is a no-op depends on that field only. *)
Lemma fix_field_local (key : str) (d d0 : gmap str pyval) :
  d !! key = d0 !! key -> fix_field key d0 = Ok d0 -> fix_field key d = Ok d.
Proof.
  intros Hsame He.
  destruct (fix_field_inv key d0 d0 He) as [[Ht _]|(s & r & Hk & Hs & Hr & Heq)].
  - unfold fix_field, dict_get in *. rewrite Hsame, Ht. reflexivity.
  - assert (Hrs : r = s).
    { assert (H : d0 !! key = Some (VStr r))
        by (rewrite Heq; apply lookup_insert_eq).
      rewrite Hk in H. congruence. }
    subst r. unfold fix_field, dict_get, dict_getitem.
    rewrite Hsame, Hk. simpl.
    destruct s as [|c s]; [contradiction|]. cbn [length Nat.eqb negb].
    cbn [mbind result_bind try_fix_gstin_value]. rewrite Hr. cbn.
    rewrite insert_id by (rewrite Hsame; exact Hk). reflexivity.
Qed.

Lemma post_process_inv (data p : gmap str pyval) :
  post_process_invoice_data data = Ok p ->
  exists d1,
    fix_field (pystr "StockiestGST") data = Ok d1
    /\ fix_field (pystr "InstituteGST") d1 = Ok p.
Proof.
  unfold post_process_invoice_data.
  destruct (fix_field (pystr "StockiestGST") data) as [d1| |];
    cbn [mbind result_bind]; try discriminate.
  destruct (fix_field (pystr "InstituteGST") d1) as [d2| |] eqn:He2;
    cbn [mbind result_bind]; try discriminate.
  intros [= <-]. exists d1. split; [reflexivity|exact He2].
Qed.

(** X10: post-processing is idempotent: a record it returned is returned
    unchanged when post-processed again. *)
Theorem post_process_idempotent (data p : gmap str pyval) :
  post_process_invoice_data data = Ok p ->
  post_process_invoice_data p = Ok p.
Proof.
  intros (d1 & He1 & He2)%post_process_inv.
  pose proof gst_keys_distinct as Hne.
  assert (H1 : fix_field (pystr "StockiestGST") p = Ok p).
  { apply (fix_field_local _ p d1).
    - apply (fix_field_frame _ _ _ _ He2). exact Hne.
    - apply (fix_field_settled _ _ _ He1). }
  assert (H2 : fix_field (pystr "InstituteGST") p = Ok p)
    by apply (fix_field_settled _ _ _ He2).
  unfold post_process_invoice_data. rewrite H1. cbn [mbind result_bind].
  rewrite H2. reflexivity.
Qed.

Lemma sample_record_processed :
  exists p, post_process_invoice_data sample_record = Ok p.
Proof.
  destruct (fix_field_spec (pystr "StockiestGST") sample_record)
    as (d1 & He1 & Hframe1 & _).
  { intros v Hk _. vm_compute in Hk. injection Hk as <-. eexists; reflexivity. }
  destruct (fix_field_spec (pystr "InstituteGST") d1) as (d2 & He2 & _).
  { intros v Hk _. rewrite Hframe1 in Hk by (vm_compute; discriminate).
    vm_compute in Hk. injection Hk as <-. eexists; reflexivity. }
  exists d2. unfold post_process_invoice_data.
  rewrite He1. cbn [mbind result_bind]. rewrite He2. reflexivity.
Defined.

Lemma post_process_idempotent_witness :
  exists p,
    post_process_invoice_data sample_record = Ok p
    /\ post_process_invoice_data p = Ok p.
Proof.
  destruct sample_record_processed as [p Hp].
  exists p. split; [exact Hp|]. exact (post_process_idempotent _ _ Hp).
Defined.

(** X11: post-processing neither adds nor removes a field: the record it
    returns has exactly the keys of its input; in particular an absent
    tax-identifier field is not created. *)
Theorem post_process_keeps_keys (data p : gmap str pyval) :
  post_process_invoice_data data = Ok p -> dom p = dom data.
Proof.
  assert (Hdom : forall key (d d' : gmap str pyval),
            fix_field key d = Ok d' -> dom d' = dom d).
  { intros key d d' [[_ ->]|(s & r & Hk & _ & _ & ->)]%fix_field_inv;
      [reflexivity|].
    apply dom_insert_lookup_L. rewrite Hk. eexists; reflexivity. }
  intros (d1 & He1 & He2)%post_process_inv.
  rewrite (Hdom _ _ _ He2), (Hdom _ _ _ He1). reflexivity.
Qed.

Lemma post_process_keeps_keys_witness :
  exists p,
    post_process_invoice_data sample_record = Ok p
    /\ dom p = dom sample_record.
Proof.
  destruct sample_record_processed as [p Hp].
  exists p. split; [exact Hp|]. exact (post_process_keeps_keys _ _ Hp).
Defined.

Lemma fix_field_typed (key : str) (d d' : gmap str pyval) (v : pyval) :
  fix_field key d = Ok d' -> d !! key = Some v -> truthy v = true ->
  exists s, v = VStr s.
Proof.
  intros [[Ht _]|(s & r & Hk & _)]%fix_field_inv Hv Htrue.
  - unfold dict_get in Ht. rewrite Hv in Ht. simpl in Ht. congruence.
  - exists s. congruence.
Qed.

Lemma post_process_outcome_typed (data : gmap str pyval) :
  (forall key v, is_gst_key key -> data !! key = Some v ->
     truthy v = true -> exists s, v = VStr s) ->
  exists p, post_process_invoice_data data = Ok p.
Proof.
  intros Hstr. pose proof gst_keys_distinct as Hne.
  destruct (fix_field_spec (pystr "StockiestGST") data)
    as (d1 & He1 & Hframe1 & _).
  { intros v. apply Hstr. left. reflexivity. }
  destruct (fix_field_spec (pystr "InstituteGST") d1) as (d2 & He2 & _).
  { intros v. rewrite Hframe1 by congruence. apply Hstr. right. reflexivity. }
  exists d2. unfold post_process_invoice_data.
  rewrite He1. cbn [mbind result_bind]. rewrite He2. reflexivity.
Qed.

(** X12: on a record of JSON values (None, booleans, integers, strings,
    lists and dicts, which is what the values of this model are and what
    the schema dump hands over), post-processing returns a record exactly
    when each of the two tax-identifier fields is absent, falsy or a
    string; a truthy boolean, integer, list or dict in one of them makes
    it raise.  Values of other Python types, such as bytes, are outside
    this statement. *)
Theorem post_process_returns_iff (data : gmap str pyval) :
  (exists p, post_process_invoice_data data = Ok p)
  <-> (forall key v, is_gst_key key -> data !! key = Some v ->
         truthy v = true -> exists s, v = VStr s).
Proof.
  pose proof gst_keys_distinct as Hne. split.
  - intros [p (d1 & He1 & He2)%post_process_inv] key v [->| ->] Hk Ht.
    + exact (fix_field_typed _ _ _ _ He1 Hk Ht).
    + apply (fix_field_typed _ _ _ _ He2); [|exact Ht].
      rewrite (fix_field_frame _ _ _ _ He1) by congruence. exact Hk.
  - apply post_process_outcome_typed.
Qed.

Lemma post_process_returns_iff_witness :
  (exists p, post_process_invoice_data sample_record = Ok p)
  /\ ~ (exists p, post_process_invoice_data ill_typed_record = Ok p).
Proof.
  split.
  - apply (proj2 (post_process_returns_iff sample_record)).
    intros key v [->| ->] Hk _; vm_compute in Hk; injection Hk as <-;
      eexists; reflexivity.
  - intros H.
    destruct (proj1 (post_process_returns_iff ill_typed_record) H
                (pystr "StockiestGST") (VInt 7)) as [s Hs];
      [left; reflexivity|vm_compute; reflexivity|reflexivity|discriminate Hs].
Defined.



Lemma fix_field_accepted (key k : str) (d d' : gmap str pyval) :
  fix_field key d = Ok d' -> field_accepted d k -> field_accepted d' k.
Proof.
  intros [[_ ->]|(s & r & Hk & _ & Hr & ->)]%fix_field_inv Hacc;
    [exact Hacc|].
  destruct (decide (k = key)) as [->|Hne].
  - destruct Hacc as (s' & Hk' & Hs'). rewrite Hk in Hk'.
    injection Hk' as <-. exists r. split; [apply lookup_insert_eq|].
    exact (try_fix_gstin_accepted _ _ Hs' Hr).
  - destruct Hacc as (s' & Hk' & Hs'). exists s'.
    split; [|exact Hs']. rewrite lookup_insert_ne by congruence. exact Hk'.
Qed.

(** X14: post-processing keeps a record within the schema: when both
    tax-identifier fields hold strings the field validator accepts (as
    after model validation), it returns a record, and both fields of that
    record again hold strings the field validator accepts. *)
Theorem post_process_keeps_schema (data : gmap str pyval) :
  (forall key, is_gst_key key -> field_accepted data key) ->
  exists p,
    post_process_invoice_data data = Ok p
    /\ forall key, is_gst_key key -> field_accepted p key.
Proof.
  intros Hacc.
  assert (Hret : exists p, post_process_invoice_data data = Ok p).
  { destruct (post_process_outcome_typed data) as [p Hp]; [|exists p; exact Hp].
    intros key v Hkey Hk _. destruct (Hacc key Hkey) as (s & Hs & _).
    exists s. congruence. }
  destruct Hret as [p Hp]. exists p. split; [exact Hp|].
  destruct (post_process_inv _ _ Hp) as (d1 & He1 & He2).
  intros key Hkey. apply (fix_field_accepted _ _ _ _ He2).
  apply (fix_field_accepted _ _ _ _ He1). apply Hacc. exact Hkey.
Qed.

Lemma post_process_keeps_schema_witness :
  (forall key, is_gst_key key -> field_accepted sample_record key)
  /\ exists p,
       post_process_invoice_data sample_record = Ok p
       /\ forall key, is_gst_key key -> field_accepted p key.
Proof.
  assert (Hacc : forall key, is_gst_key key -> field_accepted sample_record key).
  { intros key [->| ->].
    - exists (pystr "07aaf8i8134f1zm"). split; vm_compute; reflexivity.
    - exists []. split; vm_compute; reflexivity. }
  split; [exact Hacc|]. exact (post_process_keeps_schema sample_record Hacc).
Defined.

Lemma unchanged_iff_valid_or_no_fix_witness :
  is_valid_gstin_format (pystr "07AAFCI8134F1ZM") = true
  /\ try_fix_gstin (pystr "07AAFCI8134F1ZM") = Ok (pystr "07AAFCI8134F1ZM").
Proof.
  assert (Hv : is_valid_gstin_format (pystr "07AAFCI8134F1ZM") = true)
    by (vm_compute; reflexivity).
  split; [exact Hv|].
  exact (proj2 (unchanged_iff_valid_or_no_fix _) (or_introl Hv)).
Defined.
